(** * seismic_websocket: a shallow embedding of the feed client

    The script [seismic_websocket.py] subscribes to a websocket feed of
    seismic events, reverse-geocodes each event and appends one row per event
    to a CSV file.  This file embeds its functions as state-passing Rocq
    functions and proves the properties of the specification about them.

    Conventions of the embedding.
    - Python values coming out of [json.loads] are the inductive type
      [pyval]; dictionaries are finite maps with string keys (JSON object
      keys are strings), floats are IEEE binary64 values.
    - Side effects are threaded through a [world]: the files on disk and a
      chronological trace of what the process did (log records, sleeps,
      connection attempts).
    - Exceptions are an explicit result: a computation either returns a value
      or raises an [exn]; [try]/[except] is a combinator.
    - Library calls whose result the script does not control (the geocoder,
      the operating system's file write, the websocket client, the JSON
      parser) take their outcome as an argument, so every theorem is
      quantified over what the outside world does. *)

From Stdlib Require Import ZArith Floats Ascii String.
From stdpp Require Import gmap strings list fin_maps.

Set Warnings "-register-all,-inexact-float".

(** ** Python values *)

Inductive pyval : Type :=
| PyNone
| PyBool (b : bool)
| PyInt (z : Z)
| PyFloat (f : float)
| PyStr (s : string)
| PyList (l : list pyval)
| PyDict (d : gmap string pyval).

(** Python truthiness, as used by [if location and location.raw]. *)
Definition truthy (v : pyval) : bool :=
  match v with
  | PyNone => false
  | PyBool b => b
  | PyInt z => negb (z =? 0)%Z
  | PyFloat f => negb (PrimFloat.eqb f 0%float)
  | PyStr s => negb (String.eqb s "")
  | PyList l => match l with [] => false | _ :: _ => true end
  | PyDict d => negb (Nat.eqb (size d) 0)
  end.

(** ** Exceptions *)

Inductive exn : Type :=
| JSONDecodeError
| KeyError (key : pyval)
| IndexError
| TypeError
| AttributeError
| GeocoderTimedOut
| OSError (msg : string)
| OtherError (name : string)
| KeyboardInterrupt
| SystemExit.

(** [isinstance(e, Exception)]: everything but the two classes that derive
    from [BaseException] directly. *)
Definition is_Exception (e : exn) : bool :=
  match e with
  | KeyboardInterrupt | SystemExit => false
  | _ => true
  end.

Inductive result (A : Type) : Type :=
| Ret (a : A)
| Raise (e : exn).
Arguments Ret {A} a.
Arguments Raise {A} e.

(** ** The world: files and the trace of observable actions *)

(** A CSV file is kept as its rows, a row as its cells; how pandas renders a
    cell as text is not modelled. *)
Definition csv_row : Type := list pyval.
Definition csv_file : Type := list csv_row.

(** A dict literal, in the order its keys are written. *)
Definition record : Type := list (string * pyval).

Inductive level : Type := INFO | WARNING | ERROR.

(** The messages the script logs, one constructor per format string, with the
    values interpolated into it. *)
Inductive message : Type :=
| MsgGeocoderTimedOut (lat lon : pyval)
| MsgLocationError (lat lon : pyval) (e : exn)
| MsgEventSaved (event_data : record)
| MsgSaveError (e : exn)
| MsgProcessingError
| MsgWebSocketError (error : exn)
| MsgConnectionClosed (close_status_code close_msg : pyval)
| MsgConnectionOpened
| MsgShuttingDown
| MsgUnexpectedError.

Inductive event : Type :=
| Log (lvl : level) (msg : message) (exc_info : option exn)
| Sleep (seconds : Z)
| RunForever (url : string) (ping_interval : Z).

Record world : Type := World {
  files : gmap string csv_file;
  trace : list event
}.

Definition emit (ev : event) (w : world) : world :=
  {| files := files w; trace := trace w ++ [ev] |}.

(** ** A state and exception monad *)

Definition M (A : Type) : Type := world → result A * world.

Definition ret {A} (a : A) : M A := λ w, (Ret a, w).
Definition raise {A} (e : exn) : M A := λ w, (Raise e, w).
Definition bind {A B} (m : M A) (k : A → M B) : M B :=
  λ w, match m w with
       | (Ret a, w1) => k a w1
       | (Raise e, w1) => (Raise e, w1)
       end.
Definition lift {A} (r : result A) : M A := λ w, (r, w).

(** [try: body except ...: handler], the handler deciding which exceptions it
    takes and re-raising the others. *)
Definition try_except {A} (body : M A) (handler : exn → M A) : M A :=
  λ w, match body w with
       | (Ret a, w1) => (Ret a, w1)
       | (Raise e, w1) => handler e w1
       end.

Notation "x <- m ;; k" := (bind m (λ x, k))
  (at level 100, m at next level, right associativity).
Notation "m ;;; k" := (bind m (λ _, k))
  (at level 100, right associativity).

(** [logging.info], [logging.warning], [logging.error], [logging.exception]. *)
Definition logging_info (msg : message) : M unit :=
  λ w, (Ret tt, emit (Log INFO msg None) w).
Definition logging_warning (msg : message) : M unit :=
  λ w, (Ret tt, emit (Log WARNING msg None) w).
Definition logging_error (msg : message) : M unit :=
  λ w, (Ret tt, emit (Log ERROR msg None) w).
(** [logging.exception] logs at level ERROR and attaches the exception being
    handled with its traceback. *)
Definition logging_exception (msg : message) (e : exn) : M unit :=
  λ w, (Ret tt, emit (Log ERROR msg (Some e)) w).

(** What happens during a [time.sleep]: it lasts its time, or Ctrl-C arrives
    and the call raises [KeyboardInterrupt]. *)
Inductive sleep_outcome : Type :=
| SleepDone
| SleepInterrupted.

Definition time_sleep (o : sleep_outcome) (seconds : Z) : M unit :=
  λ w, match o with
       | SleepDone => (Ret tt, emit (Sleep seconds) w)
       | SleepInterrupted => (Raise KeyboardInterrupt, w)
       end.

(** ** Python operations on values *)

(** [v[k]] for a string key. *)
Definition subscript (v : pyval) (k : string) : result pyval :=
  match v with
  | PyDict d => match d !! k with
                | Some x => Ret x
                | None => Raise (KeyError (PyStr k))
                end
  | _ => Raise TypeError
  end.

(** [v[i]] for a literal index [i >= 0].  A dict parsed from JSON has string
    keys only, so an integer key is never found. *)
Definition index (v : pyval) (i : nat) : result pyval :=
  match v with
  | PyList l => match l !! i with
                | Some x => Ret x
                | None => Raise IndexError
                end
  | PyStr s => match String.get i s with
               | Some c => Ret (PyStr (String c EmptyString))
               | None => Raise IndexError
               end
  | PyDict _ => Raise (KeyError (PyInt (Z.of_nat i)))
  | _ => Raise TypeError
  end.

(** [v[k] = x]; the result is the object after the assignment. *)
Definition setitem (v : pyval) (k : string) (x : pyval) : result pyval :=
  match v with
  | PyDict d => Ret (PyDict (<[k := x]> d))
  | _ => Raise TypeError
  end.

(** [v.get(k, dflt)]: only a dict has the method. *)
Definition dict_get (v : pyval) (k : string) (dflt : pyval) : result pyval :=
  match v with
  | PyDict d => Ret (default dflt (d !! k))
  | _ => Raise AttributeError
  end.

(** ** The CSV file and its initialisation (lines 13, 19-20) *)

Definition CSV_FILE : string := "seismic_events.csv".
Definition websocket_url : string :=
  "wss://www.seismicportal.eu/standing_order/websocket".
Definition PING_INTERVAL : Z := 15.

Definition COLUMNS : list string :=
  ["action"; "auth"; "unid"; "time"; "mag"; "flynn_region";
   "latitude"; "longitude"; "city"; "state"; "country"].

Record DataFrame : Type := {
  columns : list string;
  rows : list csv_row
}.

(** [pd.DataFrame(columns=cols)]. *)
Definition DataFrame_empty (cols : list string) : DataFrame :=
  {| columns := cols; rows := [] |}.
(** [pd.DataFrame([d])] for one dict: its keys are the columns, its values the
    single row. *)
Definition DataFrame_of_dict (d : record) : DataFrame :=
  {| columns := d.*1; rows := [d.*2] |}.

Inductive file_mode : Type := ModeWrite | ModeAppend.

(** What the operating system does with a write: it succeeds, or the file
    cannot be opened or written and [OSError] is raised with nothing written. *)
Inductive io_outcome : Type :=
| IoOk
| IoError (msg : string).

Definition header_row (df : DataFrame) : csv_row := PyStr <$> columns df.

(** [df.to_csv(path, mode=mode, header=header, index=False)]. *)
Definition to_csv (io : io_outcome) (df : DataFrame) (path : string)
    (mode : file_mode) (header : bool) : M unit :=
  λ w, match io with
       | IoError msg => (Raise (OSError msg), w)
       | IoOk =>
           let old := match mode with
                      | ModeWrite => []
                      | ModeAppend => default [] (files w !! path)
                      end in
           let new := (if header then [header_row df] else []) ++ rows df in
           (Ret tt, {| files := <[path := old ++ new]> (files w);
                       trace := trace w |})
       end.

Definition os_path_exists (path : string) : M bool :=
  λ w, (Ret (bool_decide (is_Some (files w !! path))), w).

(** The module-level bootstrap of lines 19-20. *)
Definition initialize_store (io : io_outcome) : M unit :=
  exists_ <- os_path_exists CSV_FILE ;;
  if negb exists_
  then to_csv io (DataFrame_empty COLUMNS) CSV_FILE ModeWrite true
  else ret tt.

(** ** get_location (lines 22-38) *)

(** What [geolocator.reverse(..., exactly_one=True, timeout=10)] does: it
    finds nothing, returns a [Location] carrying the service's answer [raw], or
    raises. *)
Inductive reverse_outcome : Type :=
| ReverseNone
| ReverseLocation (raw : pyval)
| ReverseRaises (e : exn).

Definition geolocator_reverse (rev : reverse_outcome) (lat lon : pyval)
  : M (option pyval) :=
  match rev with
  | ReverseNone => ret None
  | ReverseLocation raw => ret (Some raw)
  | ReverseRaises e => raise e
  end.

Definition EMPTY : pyval := PyStr "".

(** The body of the [try]: [Some] is the early [return city, state, country],
    [None] is falling out of the [if]. *)
Definition get_location_try (rev : reverse_outcome) (lat lon : pyval)
  : M (option (pyval * pyval * pyval)) :=
  location <- geolocator_reverse rev lat lon ;;
  match location with
  | Some raw =>
      (* a [Location] object is always truthy; [location.raw] may be empty *)
      if truthy raw then
        address <- lift (dict_get raw "address" (PyDict ∅)) ;;
        village <- lift (dict_get address "village" EMPTY) ;;
        town <- lift (dict_get address "town" village) ;;
        city <- lift (dict_get address "city" town) ;;
        state <- lift (dict_get address "state" EMPTY) ;;
        country <- lift (dict_get address "country" EMPTY) ;;
        ret (Some (city, state, country))
      else ret None
  | None => ret None
  end.

Definition get_location (rev : reverse_outcome) (lat lon : pyval)
  : M (pyval * pyval * pyval) :=
  r <- try_except (get_location_try rev lat lon)
         (λ e, match e with
               | GeocoderTimedOut =>
                   logging_warning (MsgGeocoderTimedOut lat lon) ;;; ret None
               | _ =>
                   if is_Exception e
                   then logging_error (MsgLocationError lat lon e) ;;; ret None
                   else raise e
               end) ;;
  match r with
  | Some t => ret t
  | None => ret (EMPTY, EMPTY, EMPTY)
  end.

(** ** save_to_csv (lines 40-49) *)

Definition save_to_csv (io : io_outcome) (event_data : record) : M pyval :=
  try_except
    (let df := DataFrame_of_dict event_data in
     to_csv io df CSV_FILE ModeAppend false ;;;
     logging_info (MsgEventSaved event_data))
    (λ e, if is_Exception e
          then logging_error (MsgSaveError e)
          else raise e) ;;;
  ret PyNone.

(** ** process_message (lines 52-81) *)

Section Pipeline.

(** [json.loads]: the parsed value, or [None] when the text is not JSON and
    [JSONDecodeError] is raised. *)
Variable json_loads : string → option pyval.

Definition json_loads_call (message : string) : M pyval :=
  match json_loads message with
  | Some v => ret v
  | None => raise JSONDecodeError
  end.

(** The dict literal of lines 65-77. *)
Definition make_event_data (action auth unid time mag flynn_region
    latitude longitude city state country : pyval) : record :=
  [("action", action); ("auth", auth); ("unid", unid); ("time", time);
   ("mag", mag); ("flynn_region", flynn_region);
   ("latitude", latitude); ("longitude", longitude);
   ("city", city); ("state", state); ("country", country)].

(** The body of the [try].  [info] is the dict object inside [data]; the
    assignment [info['action'] = ...] changes that object only, and the
    later reads go through [data['data']['geometry']], another object of
    the tree, so they are made on [data] as parsed. *)
Definition process_message_try (rev : reverse_outcome) (io : io_outcome)
    (message : string) : M unit :=
  data <- json_loads_call message ;;
  d <- lift (subscript data "data") ;;
  info <- lift (subscript d "properties") ;;
  action <- lift (subscript data "action") ;;
  info <- lift (setitem info "action" action) ;;
  d1 <- lift (subscript data "data") ;;
  g1 <- lift (subscript d1 "geometry") ;;
  c1 <- lift (subscript g1 "coordinates") ;;
  latitude <- lift (index c1 1) ;;
  d0 <- lift (subscript data "data") ;;
  g0 <- lift (subscript d0 "geometry") ;;
  c0 <- lift (subscript g0 "coordinates") ;;
  longitude <- lift (index c0 0) ;;
  loc <- get_location rev latitude longitude ;;
  let '(city, state, country) := loc in
  action <- lift (dict_get info "action" PyNone) ;;
  auth <- lift (dict_get info "auth" PyNone) ;;
  unid <- lift (dict_get info "unid" PyNone) ;;
  time <- lift (dict_get info "time" PyNone) ;;
  mag <- lift (dict_get info "mag" PyNone) ;;
  flynn_region <- lift (dict_get info "flynn_region" PyNone) ;;
  (* the value of the call is discarded *)
  save_to_csv io
    (make_event_data action auth unid time mag flynn_region
       latitude longitude city state country) ;;;
  ret tt.

Definition process_message (rev : reverse_outcome) (io : io_outcome)
    (message : string) : M pyval :=
  try_except (process_message_try rev io message)
    (λ e, if is_Exception e
          then logging_exception MsgProcessingError e
          else raise e) ;;;
  ret PyNone.

(** ** The websocket callbacks and the reconnect loop (lines 84-131) *)

(** What the websocket client reports while one connection lives.  A
    message comes with what the geocoder and the file system will do while
    it is processed. *)
Inductive ws_event : Type :=
| WsOpen
| WsMessage (message : string) (rev : reverse_outcome) (io : io_outcome)
| WsError (error : exn)
| WsClose (close_status_code close_msg : pyval).

(** One turn of the loop as the outside world shapes it: the callbacks that
    [ws.run_forever] makes, how the call ends (it returns, [None], or an
    exception leaves it), and what happens during the [time.sleep] of the
    handler if the turn gets there. *)
Record session : Type := {
  ws_events : list ws_event;
  ws_ending : option exn;
  ws_sleep : sleep_outcome
}.

Definition on_message (message : string) (rev : reverse_outcome)
    (io : io_outcome) : M pyval :=
  process_message rev io message.
Definition on_error (error : exn) : M unit :=
  logging_error (MsgWebSocketError error).
Definition on_close (close_status_code close_msg : pyval) : M unit :=
  logging_info (MsgConnectionClosed close_status_code close_msg).
Definition on_open : M unit :=
  logging_info MsgConnectionOpened.

Definition callback (ev : ws_event) : M unit :=
  match ev with
  | WsOpen => on_open
  | WsMessage message rev io => on_message message rev io ;;; ret tt
  | WsError error => on_error error
  | WsClose code msg => on_close code msg
  end.

Fixpoint callbacks (evs : list ws_event) : M unit :=
  match evs with
  | [] => ret tt
  | ev :: rest => callback ev ;;; callbacks rest
  end.

(** [websocket.WebSocketApp(url, ...).run_forever(ping_interval=...)].  An
    exception that leaves a callback leaves [run_forever] too. *)
Definition run_forever (s : session) : M unit :=
  (λ w, (Ret tt, emit (RunForever websocket_url PING_INTERVAL) w)) ;;;
  callbacks (ws_events s) ;;;
  match ws_ending s with
  | None => ret tt
  | Some e => raise e
  end.

Inductive control : Type := Continue | Break.

(** One turn of the [while True] loop.  An exception raised inside a handler
    is not seen by the sibling [except] clauses: it leaves the [try]. *)
Definition start_websocket_turn (s : session) : M control :=
  try_except (run_forever s ;;; ret Continue)
    (λ e, match e with
          | KeyboardInterrupt =>
              logging_info MsgShuttingDown ;;; ret Break
          | _ =>
              if is_Exception e
              then logging_exception MsgUnexpectedError e ;;;
                   time_sleep (ws_sleep s) 5 ;;; ret Continue
              else raise e
          end).

(** How far the loop got on a finite prefix of what the network does. *)
Inductive loop_result : Type :=
| StillRunning (w : world)
| Returned (w : world)
| Propagated (e : exn) (w : world).

Fixpoint start_websocket (sessions : list session) (w : world)
  : loop_result :=
  match sessions with
  | [] => StillRunning w
  | s :: rest =>
      match start_websocket_turn s w with
      | (Ret Continue, w1) => start_websocket rest w1
      | (Ret Break, w1) => Returned w1
      | (Raise e, w1) => Propagated e w1
      end
  end.

End Pipeline.

(** * Statements *)

(** ** Vocabulary of the statements *)

(** The value at a path of keys in nested JSON objects, if every key on the
    way is present. *)
Fixpoint lookup_path (path : list string) (v : pyval) : option pyval :=
  match path with
  | [] => Some v
  | k :: rest =>
      match v with
      | PyDict d => match d !! k with
                    | Some x => lookup_path rest x
                    | None => None
                    end
      | _ => None
      end
  end.

(** A lookup outcome that is not an interpreter-level interrupt: the lookup
    returns, times out, or fails with an error. *)
Definition lookup_outcome (rev : reverse_outcome) : bool :=
  match rev with
  | ReverseRaises e => is_Exception e
  | _ => true
  end.

(** The structured address of an answer, when it has one. *)
Definition address_of (rev : reverse_outcome) : option (gmap string pyval) :=
  match rev with
  | ReverseLocation (PyDict d) =>
      match d !! "address" with
      | Some (PyDict a) => Some a
      | _ => None
      end
  | _ => None
  end.

Definition str_or_absent (o : option pyval) : bool :=
  match o with
  | None | Some (PyStr _) => true
  | Some _ => false
  end.

(** The lookup service's interface: the components of an address, when
    present, are text. *)
Definition textual_address (rev : reverse_outcome) : bool :=
  match address_of rev with
  | Some a =>
      forallb (λ k, str_or_absent (a !! k))
        ["city"; "town"; "village"; "state"; "country"]
  | None => true
  end.

(** The caller of [get_location] gets three string values. *)
Definition three_strings (r : result (pyval * pyval * pyval)) : Prop :=
  ∃ city state country : string,
    r = Ret (PyStr city, PyStr state, PyStr country).

(** The extraction policy in the specification's words: [city], else [town],
    else [village], else the empty string; [state] and [country] without a
    fallback. *)
Definition city_policy (a : gmap string pyval) : pyval :=
  match a !! "city" with
  | Some v => v
  | None => match a !! "town" with
            | Some v => v
            | None => match a !! "village" with
                      | Some v => v
                      | None => EMPTY
                      end
            end
  end.

Definition field_or_empty (a : gmap string pyval) (k : string) : pyval :=
  match a !! k with
  | Some v => v
  | None => EMPTY
  end.

(** N calls of [save_to_csv], each with what the file system does. *)
Fixpoint save_all (calls : list (io_outcome * record)) : M unit :=
  match calls with
  | [] => ret tt
  | (io, r) :: rest => save_to_csv io r ;;; save_all rest
  end.

(** The file at the store path, empty when there is none. *)
Definition store (w : world) : csv_file := default [] (files w !! CSV_FILE).

(** The caller of [save_to_csv] is told of an I/O error when the value
    returned differs from the one a successful call returns. *)
Definition signals_error (msg : string) (r : record) (w : world) : Prop :=
  (save_to_csv (IoError msg) r w).1 ≠ (save_to_csv IoOk r w).1.

(** Lines 57-61 as a pure function of what [json.loads] gives: the [info]
    dict after the assignment of ["action"], the latitude, the longitude. *)
Definition parse_event (parsed : option pyval)
  : result (pyval * pyval * pyval) :=
  match parsed with
  | None => Raise JSONDecodeError
  | Some data =>
      match subscript data "data" with
      | Raise e => Raise e
      | Ret d =>
      match subscript d "properties" with
      | Raise e => Raise e
      | Ret info =>
      match subscript data "action" with
      | Raise e => Raise e
      | Ret action =>
      match setitem info "action" action with
      | Raise e => Raise e
      | Ret info' =>
      match subscript d "geometry" with
      | Raise e => Raise e
      | Ret g =>
      match subscript g "coordinates" with
      | Raise e => Raise e
      | Ret c =>
      match index c 1 with
      | Raise e => Raise e
      | Ret latitude =>
      match index c 0 with
      | Raise e => Raise e
      | Ret longitude => Ret (info', latitude, longitude)
      end end end end end end end end
  end.

(** A message with the shape of the feed: an action, a properties object and
    a coordinate array of at least two elements. *)
Definition well_formed (data action : pyval) (props : gmap string pyval)
    (coords : list pyval) : Prop :=
  lookup_path ["action"] data = Some action ∧
  lookup_path ["data"; "properties"] data = Some (PyDict props) ∧
  lookup_path ["data"; "geometry"; "coordinates"] data = Some (PyList coords) ∧
  2 ≤ length coords.

(** A message that is not JSON, or that lacks one of the nested paths. *)
Definition malformed (parsed : option pyval) : Prop :=
  match parsed with
  | None => True
  | Some data =>
      lookup_path ["data"] data = None ∨
      lookup_path ["data"; "properties"] data = None ∨
      lookup_path ["data"; "geometry"] data = None ∨
      lookup_path ["data"; "geometry"; "coordinates"] data = None
  end.

(** The cell of a row under a column of the header. *)
Fixpoint column_index (name : string) (cols : list string) : option nat :=
  match cols with
  | [] => None
  | c :: rest => if String.eqb c name then Some 0
                 else S <$> column_index name rest
  end.

Definition cell (name : string) (row : csv_row) : option pyval :=
  match column_index name COLUMNS with
  | Some i => row !! i
  | None => None
  end.

(** The record of a well-formed message: properties read with [.get], so a
    missing one is [None]. *)
Definition event_record (action : pyval) (props : gmap string pyval)
    (latitude longitude city state country : pyval) : record :=
  make_event_data action
    (default PyNone (props !! "auth")) (default PyNone (props !! "unid"))
    (default PyNone (props !! "time")) (default PyNone (props !! "mag"))
    (default PyNone (props !! "flynn_region"))
    latitude longitude city state country.

(** The rest of the [try] body, lines 63-79. *)
Definition enrich_and_save (rev : reverse_outcome) (io : io_outcome)
    (info latitude longitude : pyval) : M unit :=
  loc <- get_location rev latitude longitude ;;
  let '(city, state, country) := loc in
  action <- lift (dict_get info "action" PyNone) ;;
  auth <- lift (dict_get info "auth" PyNone) ;;
  unid <- lift (dict_get info "unid" PyNone) ;;
  time <- lift (dict_get info "time" PyNone) ;;
  mag <- lift (dict_get info "mag" PyNone) ;;
  flynn_region <- lift (dict_get info "flynn_region" PyNone) ;;
  save_to_csv io
    (make_event_data action auth unid time mag flynn_region
       latitude longitude city state country) ;;;
  ret tt.

(** A callback event during which the lookup is not interrupted. *)
Definition event_ok (ev : ws_event) : bool :=
  match ev with
  | WsMessage _ rev _ => lookup_outcome rev
  | _ => true
  end.

Definition sleep_done (o : sleep_outcome) : bool :=
  match o with
  | SleepDone => true
  | SleepInterrupted => false
  end.

(** A turn without an interrupt: [run_forever] returns, or an [Exception]
    leaves it and the sleep that follows lasts its time. *)
Definition session_retries (s : session) : bool :=
  forallb event_ok (ws_events s) &&
  match ws_ending s with
  | Some e => is_Exception e && sleep_done (ws_sleep s)
  | None => true
  end.

(** ** Example messages, answers and connections *)

Definition dquote : string := String "034"%char EmptyString.
Definition quoted (s : string) : string := dquote +:+ s +:+ dquote.

(** Scenario 1: a complete [create] event in the Aegean Sea. *)
Definition scenario_1 : string :=
  "{" +:+ quoted "action" +:+ ":" +:+ quoted "create" +:+ "," +:+
  quoted "data" +:+ ":{" +:+ quoted "properties" +:+ ":{" +:+
  quoted "auth" +:+ ":" +:+ quoted "EMSC" +:+ "," +:+
  quoted "unid" +:+ ":" +:+ quoted "x1" +:+ "," +:+
  quoted "time" +:+ ":" +:+ quoted "2024-01-01T00:00:00Z" +:+ "," +:+
  quoted "mag" +:+ ":4.5," +:+
  quoted "flynn_region" +:+ ":" +:+ quoted "AEGEAN SEA" +:+ "}," +:+
  quoted "geometry" +:+ ":{" +:+ quoted "coordinates" +:+ ":[23.7,37.9]}}}".

Definition scenario_1_properties : gmap string pyval :=
  {[ "auth" := PyStr "EMSC"; "unid" := PyStr "x1";
     "time" := PyStr "2024-01-01T00:00:00Z"; "mag" := PyFloat 4.5;
     "flynn_region" := PyStr "AEGEAN SEA" ]}.

Definition geometry_of (coords : list pyval) : pyval :=
  PyDict {[ "coordinates" := PyList coords ]}.

Definition scenario_1_data : pyval :=
  PyDict {[ "action" := PyStr "create";
            "data" := PyDict {[ "properties" := PyDict scenario_1_properties;
                                "geometry" :=
                                  geometry_of [PyFloat 23.7; PyFloat 37.9] ]} ]}.

(** An event that carries only its identifier. *)
Definition sparse_event : string :=
  "{" +:+ quoted "action" +:+ ":" +:+ quoted "update" +:+ "," +:+
  quoted "data" +:+ ":{" +:+ quoted "properties" +:+ ":{" +:+
  quoted "unid" +:+ ":" +:+ quoted "x2" +:+ "}," +:+
  quoted "geometry" +:+ ":{" +:+ quoted "coordinates" +:+ ":[23.7,37.9]}}}".

Definition sparse_event_data : pyval :=
  PyDict {[ "action" := PyStr "update";
            "data" := PyDict {[ "properties" := PyDict {[ "unid" := PyStr "x2" ]};
                                "geometry" :=
                                  geometry_of [PyFloat 23.7; PyFloat 37.9] ]} ]}.

(** Scenario 3: the event has no [geometry]. *)
Definition scenario_3 : string :=
  "{" +:+ quoted "action" +:+ ":" +:+ quoted "create" +:+ "," +:+
  quoted "data" +:+ ":{" +:+ quoted "properties" +:+ ":{" +:+
  quoted "unid" +:+ ":" +:+ quoted "x3" +:+ "}}}".

Definition scenario_3_data : pyval :=
  PyDict {[ "action" := PyStr "create";
            "data" := PyDict {[ "properties" :=
                                  PyDict {[ "unid" := PyStr "x3" ]} ]} ]}.

(** An event with a single coordinate. *)
Definition short_event : string :=
  "{" +:+ quoted "action" +:+ ":" +:+ quoted "create" +:+ "," +:+
  quoted "data" +:+ ":{" +:+ quoted "properties" +:+ ":{}," +:+
  quoted "geometry" +:+ ":{" +:+ quoted "coordinates" +:+ ":[23.7]}}}".

Definition short_event_data : pyval :=
  PyDict {[ "action" := PyStr "create";
            "data" := PyDict {[ "properties" := PyDict ∅;
                                "geometry" := geometry_of [PyFloat 23.7] ]} ]}.

(** [json.loads] on the example messages; any other text is taken as not
    being JSON. *)
Definition json_loads_examples (text : string) : option pyval :=
  if String.eqb text scenario_1 then Some scenario_1_data
  else if String.eqb text sparse_event then Some sparse_event_data
  else if String.eqb text scenario_3 then Some scenario_3_data
  else if String.eqb text short_event then Some short_event_data
  else None.

Definition athens : reverse_outcome :=
  ReverseLocation
    (PyDict {[ "address" := PyDict {[ "city" := PyStr "Athens";
                                      "state" := PyStr "Attica";
                                      "country" := PyStr "Greece" ]} ]}).

(** An answer whose address holds [null] under [city]. *)
Definition answer_with_null_city : reverse_outcome :=
  ReverseLocation
    (PyDict {[ "address" := PyDict {[ "city" := PyNone;
                                      "country" := PyStr "Greece" ]} ]}).

(** A machine on which the store has just been initialised. *)
Definition fresh_world : world := {| files := ∅; trace := [] |}.
Definition initialized_world : world :=
  {| files := {[ CSV_FILE := [PyStr <$> COLUMNS] ]}; trace := [] |}.

Definition scenario_1_row : csv_row :=
  [PyStr "create"; PyStr "EMSC"; PyStr "x1"; PyStr "2024-01-01T00:00:00Z";
   PyFloat 4.5; PyStr "AEGEAN SEA"; PyFloat 37.9; PyFloat 23.7;
   PyStr "Athens"; PyStr "Attica"; PyStr "Greece"].

Definition scenario_1_coordinates : list pyval := [PyFloat 23.7; PyFloat 37.9].

Definition scenario_1_record : record :=
  event_record (PyStr "create") scenario_1_properties
    (PyFloat 37.9) (PyFloat 23.7)
    (PyStr "Athens") (PyStr "Attica") (PyStr "Greece").

Definition two_records : list record :=
  [event_record (PyStr "create") scenario_1_properties
     (PyFloat 37.9) (PyFloat 23.7)
     (PyStr "Athens") (PyStr "Attica") (PyStr "Greece");
   event_record (PyStr "update") {[ "unid" := PyStr "x2" ]}
     (PyFloat 37.9) (PyFloat 23.7) EMPTY EMPTY EMPTY].

(** A connection that the server drops: the client reports the error and the
    close through the callbacks, and [run_forever] returns. *)
Definition dropped_connection : session :=
  {| ws_events := [WsOpen;
                   WsError (OtherError "WebSocketConnectionClosedException");
                   WsClose PyNone PyNone];
     ws_ending := None;
     ws_sleep := SleepDone |}.

(** The same drop, reported by an exception that leaves [run_forever]. *)
Definition failed_connection : session :=
  {| ws_events := [WsOpen];
     ws_ending := Some (OtherError "WebSocketConnectionClosedException");
     ws_sleep := SleepDone |}.

(** The same again, with Ctrl-C arriving during the sleep that follows. *)
Definition failed_connection_then_interrupt : session :=
  {| ws_events := [WsOpen];
     ws_ending := Some (OtherError "WebSocketConnectionClosedException");
     ws_sleep := SleepInterrupted |}.

Definition interrupted_connection : session :=
  {| ws_events := []; ws_ending := Some KeyboardInterrupt;
     ws_sleep := SleepDone |}.

(** ** Vocabulary of the further properties *)

Definition is_log (ev : event) : bool :=
  match ev with
  | Log _ _ _ => true
  | _ => false
  end.

(** The sleeps of a trace, in order, and its connection attempts. *)
Definition sleeps (t : list event) : list Z :=
  omap (λ ev, match ev with Sleep s => Some s | _ => None end) t.

Definition connections (t : list event) : list (string * Z) :=
  omap (λ ev, match ev with RunForever u p => Some (u, p) | _ => None end) t.

(** The world a run of the loop has reached. *)
Definition loop_world (r : loop_result) : world :=
  match r with
  | StillRunning w | Returned w | Propagated _ w => w
  end.



(** The connections that ended with an exception. *)
Fixpoint failed_count (sessions : list session) : nat :=
  match sessions with
  | [] => 0
  | s :: rest =>
      match ws_ending s with
      | Some _ => S (failed_count rest)
      | None => failed_count rest
      end
  end.


(** The callbacks that end with a row in the store: a message that can be
    taken apart and whose write succeeds. *)
Fixpoint persisted_count (json_loads : string → option pyval)
    (evs : list ws_event) : nat :=
  match evs with
  | [] => 0
  | WsMessage message _ IoOk :: rest =>
      match parse_event (json_loads message) with
      | Ret _ => S (persisted_count json_loads rest)
      | Raise _ => persisted_count json_loads rest
      end
  | _ :: rest => persisted_count json_loads rest
  end.

(** An answer with nothing to extract: no location, an empty [raw], or a
    [raw] dict without ["address"]. *)
Definition answer_without_address (rev : reverse_outcome) : bool :=
  match rev with
  | ReverseNone => true
  | ReverseLocation raw =>
      negb (truthy raw) ||
      match raw with
      | PyDict d => match d !! "address" with
                    | None => true
                    | Some _ => false
                    end
      | _ => false
      end
  | ReverseRaises _ => false
  end.

(** A non-empty [raw] that is not a dict, or whose ["address"] is not one. *)
Definition malformed_answer (raw : pyval) : bool :=
  truthy raw &&
  match raw with
  | PyDict d => match d !! "address" with
                | None | Some (PyDict _) => false
                | Some _ => true
                end
  | _ => true
  end.

Definition is_dict (v : pyval) : bool :=
  match v with
  | PyDict _ => true
  | _ => false
  end.

(** The JSON values that support neither [v[0]] as a list nor as a string. *)
Definition is_sequence (v : pyval) : bool :=
  match v with
  | PyList _ | PyStr _ => true
  | _ => false
  end.

(** Two property objects with the same values under the five keys that
    [process_message] reads. *)
Definition same_properties (p q : gmap string pyval) : Prop :=
  ∀ k, k ∈ ["auth"; "unid"; "time"; "mag"; "flynn_region"] → p !! k = q !! k.

(** The record [get_location] logs for a lookup that raised [e]. *)
Definition lookup_failure_record (lat lon : pyval) (e : exn) : event :=
  match e with
  | GeocoderTimedOut => Log WARNING (MsgGeocoderTimedOut lat lon) None
  | _ => Log ERROR (MsgLocationError lat lon e) None
  end.

(** ** Further example messages *)

(** An event without the top-level [action]. *)
Definition no_action_event : string :=
  "{" +:+ quoted "data" +:+ ":{" +:+ quoted "properties" +:+ ":{}," +:+
  quoted "geometry" +:+ ":{" +:+ quoted "coordinates" +:+ ":[23.7,37.9]}}}".

Definition no_action_event_data : pyval :=
  PyDict {[ "data" := PyDict {[ "properties" := PyDict ∅;
                                "geometry" :=
                                  geometry_of [PyFloat 23.7; PyFloat 37.9] ]} ]}.

(** An event whose [properties] is [null]. *)
Definition null_properties_event : string :=
  "{" +:+ quoted "action" +:+ ":" +:+ quoted "create" +:+ "," +:+
  quoted "data" +:+ ":{" +:+ quoted "properties" +:+ ":null," +:+
  quoted "geometry" +:+ ":{" +:+ quoted "coordinates" +:+ ":[23.7,37.9]}}}".

Definition null_properties_event_data : pyval :=
  PyDict {[ "action" := PyStr "create";
            "data" := PyDict {[ "properties" := PyNone;
                                "geometry" :=
                                  geometry_of [PyFloat 23.7; PyFloat 37.9] ]} ]}.

(** An event whose [coordinates] is an object. *)
Definition object_coordinates_event : string :=
  "{" +:+ quoted "action" +:+ ":" +:+ quoted "create" +:+ "," +:+
  quoted "data" +:+ ":{" +:+ quoted "properties" +:+ ":{}," +:+
  quoted "geometry" +:+ ":{" +:+ quoted "coordinates" +:+ ":{" +:+
  quoted "lon" +:+ ":23.7," +:+ quoted "lat" +:+ ":37.9}}}}".

Definition object_coordinates : pyval :=
  PyDict {[ "lon" := PyFloat 23.7; "lat" := PyFloat 37.9 ]}.

Definition object_coordinates_event_data : pyval :=
  PyDict {[ "action" := PyStr "create";
            "data" := PyDict {[ "properties" := PyDict ∅;
                                "geometry" :=
                                  PyDict {[ "coordinates" :=
                                              object_coordinates ]} ]} ]}.

(** Scenario 1 with an [action] and a [depth] of its own among the
    properties. *)
Definition noisy_event : string :=
  "{" +:+ quoted "action" +:+ ":" +:+ quoted "create" +:+ "," +:+
  quoted "data" +:+ ":{" +:+ quoted "properties" +:+ ":{" +:+
  quoted "action" +:+ ":" +:+ quoted "delete" +:+ "," +:+
  quoted "depth" +:+ ":10," +:+
  quoted "auth" +:+ ":" +:+ quoted "EMSC" +:+ "," +:+
  quoted "unid" +:+ ":" +:+ quoted "x1" +:+ "," +:+
  quoted "time" +:+ ":" +:+ quoted "2024-01-01T00:00:00Z" +:+ "," +:+
  quoted "mag" +:+ ":4.5," +:+
  quoted "flynn_region" +:+ ":" +:+ quoted "AEGEAN SEA" +:+ "}," +:+
  quoted "geometry" +:+ ":{" +:+ quoted "coordinates" +:+ ":[23.7,37.9]}}}".

Definition noisy_properties : gmap string pyval :=
  <["action" := PyStr "delete"]> (<["depth" := PyInt 10]> scenario_1_properties).

Definition noisy_event_data : pyval :=
  PyDict {[ "action" := PyStr "create";
            "data" := PyDict {[ "properties" := PyDict noisy_properties;
                                "geometry" :=
                                  geometry_of [PyFloat 23.7; PyFloat 37.9] ]} ]}.

(** [json.loads] on all the example messages. *)
Definition json_loads_edge_cases (text : string) : option pyval :=
  if String.eqb text no_action_event then Some no_action_event_data
  else if String.eqb text null_properties_event
       then Some null_properties_event_data
  else if String.eqb text object_coordinates_event
       then Some object_coordinates_event_data
  else if String.eqb text noisy_event then Some noisy_event_data
  else json_loads_examples text.

(** A connection over which scenario 1, scenario 3 and the sparse event
    arrive, the write of the last one failing, before the server drops it. *)
Definition busy_connection : session :=
  {| ws_events := [WsOpen;
                   WsMessage scenario_1 athens IoOk;
                   WsMessage scenario_3 athens IoOk;
                   WsMessage sparse_event (ReverseRaises GeocoderTimedOut)
                     (IoError "No space left on device");
                   WsMessage sparse_event ReverseNone IoOk;
                   WsClose PyNone PyNone];
     ws_ending := None;
     ws_sleep := SleepDone |}.

(** A connection during which the interpreter is asked to exit. *)
Definition exiting_connection : session :=
  {| ws_events := [WsOpen]; ws_ending := Some SystemExit;
     ws_sleep := SleepDone |}.

(** An answer that has a place but no address details. *)
Definition answer_without_details : reverse_outcome :=
  ReverseLocation (PyDict {[ "display_name" := PyStr "Aegean Sea" ]}).

(** An answer whose address is a line of text, not an object. *)
Definition answer_with_text_address : pyval :=
  PyDict {[ "address" := PyStr "Athens, Attica, Greece" ]}.

Definition athens_address : gmap string pyval :=
  {[ "city" := PyStr "Athens"; "state" := PyStr "Attica";
     "country" := PyStr "Greece" ]}.

(** * Proofs *)

(** ** The monad computes *)

Ltac run :=
  cbv [bind ret raise lift try_except logging_info logging_warning
       logging_error logging_exception time_sleep geolocator_reverse
       os_path_exists json_loads_call] in *.

Lemma world_eta w : {| files := files w; trace := trace w |} = w.
Proof. by destruct w. Qed.

Lemma dict_truthy (d : gmap string pyval) k v :
  d !! k = Some v → truthy (PyDict d) = true.
Proof.
  intros Hk. simpl. destruct (size d) eqn:Hsz; [|done].
  apply map_size_empty_iff in Hsz. subst d. by rewrite lookup_empty in Hk.
Qed.

(** ** get_location *)

(** What [get_location] returns on an answer whose [raw] is a non-empty
    dict with a dict under ["address"]. *)
Lemma get_location_address d a lat lon w :
  d !! "address" = Some (PyDict a) →
  get_location (ReverseLocation (PyDict d)) lat lon w =
    (Ret (default (default (default EMPTY (a !! "village")) (a !! "town"))
            (a !! "city"),
          default EMPTY (a !! "state"),
          default EMPTY (a !! "country")), w).
Proof.
  intros Ha. unfold get_location, get_location_try. run.
  rewrite (dict_truthy d _ _ Ha). cbn [dict_get]. rewrite Ha. reflexivity.
Qed.

Lemma city_policy_default (a : gmap string pyval) :
  default (default (default EMPTY (a !! "village")) (a !! "town"))
    (a !! "city") = city_policy a.
Proof.
  unfold city_policy.
  destruct (a !! "city"), (a !! "town"), (a !! "village"); reflexivity.
Qed.

Lemma field_or_empty_default (a : gmap string pyval) k :
  default EMPTY (a !! k) = field_or_empty a k.
Proof. unfold field_or_empty. destruct (a !! k); reflexivity. Qed.

(** C7: for every structured address returned by the lookup, the city is the
    value under [city], else the one under [town], else the one under
    [village], else the empty string; state and country are the values under
    [state] and [country], or the empty string, with no fallback. *)
Theorem get_location_extraction_policy :
  ∀ (d a : gmap string pyval) (lat lon : pyval) (w : world),
    d !! "address" = Some (PyDict a) →
    get_location (ReverseLocation (PyDict d)) lat lon w =
      (Ret (city_policy a, field_or_empty a "state",
            field_or_empty a "country"), w).
Proof.
  intros d a lat lon w Ha. rewrite (get_location_address d a lat lon w Ha).
  by rewrite city_policy_default, !field_or_empty_default.
Qed.

(** A lookup that returns or fails with an error never makes [get_location]
    raise, and it touches no file. *)
Lemma get_location_returns rev lat lon w :
  lookup_outcome rev = true →
  ∃ t logged,
    get_location rev lat lon w =
      (Ret t, {| files := files w; trace := trace w ++ logged |}).
Proof.
  intros Hrev. unfold get_location, get_location_try. run.
  destruct rev as [|raw|e]; cbn [lookup_outcome] in Hrev.
  - exists (EMPTY, EMPTY, EMPTY), []. by rewrite app_nil_r, world_eta.
  - destruct (truthy raw).
    + destruct raw as [| | | | | |d]; cbn [dict_get];
        try (eexists _, [_]; reflexivity).
      destruct (default (PyDict ∅) (d !! "address")) as [| | | | | |a];
        cbn [dict_get]; try (eexists _, [_]; reflexivity).
      eexists _, []. by rewrite app_nil_r, world_eta.
    + exists (EMPTY, EMPTY, EMPTY), []. by rewrite app_nil_r, world_eta.
  - destruct e; try discriminate Hrev; eexists _, [_]; reflexivity.
Qed.

(** A failed lookup gives three empty strings and one log record: a warning
    for a timeout, an error for anything else. *)
Lemma get_location_timeout lat lon w :
  get_location (ReverseRaises GeocoderTimedOut) lat lon w =
    (Ret (EMPTY, EMPTY, EMPTY),
     emit (Log WARNING (MsgGeocoderTimedOut lat lon) None) w).
Proof. reflexivity. Qed.

Lemma get_location_failure e lat lon w :
  is_Exception e = true → e ≠ GeocoderTimedOut →
  get_location (ReverseRaises e) lat lon w =
    (Ret (EMPTY, EMPTY, EMPTY),
     emit (Log ERROR (MsgLocationError lat lon e) None) w).
Proof. intros He Hne. destruct e; try done. Qed.

Lemma default_str (o : option pyval) (s : string) :
  str_or_absent o = true → ∃ s', default (PyStr s) o = PyStr s'.
Proof. destruct o as [[]|]; try discriminate; simpl; eauto. Qed.

(** With textual address components the three values are strings. *)
Lemma get_location_strings rev lat lon w :
  lookup_outcome rev = true → textual_address rev = true →
  ∃ (city state country : string) logged,
    get_location rev lat lon w =
      (Ret (PyStr city, PyStr state, PyStr country),
       {| files := files w; trace := trace w ++ logged |}).
Proof.
  intros Hrev Htxt.
  destruct rev as [|raw|e]; cbn [lookup_outcome] in Hrev.
  - exists "", "", "", []. by rewrite app_nil_r, world_eta.
  - destruct raw as [| | | | | |d];
      try (unfold get_location, get_location_try; run;
           match goal with |- context [truthy ?v] => destruct (truthy v) end;
           [eexists "", "", "", [_]; reflexivity
           |exists "", "", "", []; by rewrite app_nil_r, world_eta]).
    unfold textual_address, address_of in Htxt.
    destruct (d !! "address") as [[| | | | | |a]|] eqn:Hd;
      try (unfold get_location, get_location_try; run;
           rewrite (dict_truthy _ _ _ Hd); cbn [dict_get]; rewrite Hd;
           eexists "", "", "", [_]; reflexivity).
    + rewrite (get_location_address d a lat lon w Hd).
      cbn [forallb] in Htxt.
      repeat (apply andb_true_iff in Htxt as [? Htxt]).
      destruct (default_str (a !! "village") "") as [village Hv]; [done|].
      unfold EMPTY. rewrite Hv.
      destruct (default_str (a !! "town") village) as [town Ht]; [done|].
      rewrite Ht.
      destruct (default_str (a !! "city") town) as [city ->]; [done|].
      destruct (default_str (a !! "state") "") as [state ->]; [done|].
      destruct (default_str (a !! "country") "") as [country ->]; [done|].
      exists city, state, country, []. by rewrite app_nil_r, world_eta.
    + unfold get_location, get_location_try. run.
      destruct (truthy (PyDict d));
        [|exists "", "", "", []; by rewrite app_nil_r, world_eta].
      cbn [dict_get]. rewrite Hd. simpl. rewrite !lookup_empty.
      exists "", "", "", []. by rewrite app_nil_r, world_eta.
  - destruct e; try discriminate Hrev; eexists "", "", "", [_]; reflexivity.
Qed.

(** ** The store: initialisation and append *)

Lemma save_to_csv_ok r w :
  save_to_csv IoOk r w =
    (Ret PyNone,
     emit (Log INFO (MsgEventSaved r) None)
       {| files := <[CSV_FILE := store w ++ [r.*2]]> (files w);
          trace := trace w |}).
Proof. reflexivity. Qed.

Lemma save_to_csv_error msg r w :
  save_to_csv (IoError msg) r w =
    (Ret PyNone, emit (Log ERROR (MsgSaveError (OSError msg)) None) w).
Proof. reflexivity. Qed.

Lemma initialize_store_fresh w :
  files w !! CSV_FILE = None →
  initialize_store IoOk w =
    (Ret tt, {| files := <[CSV_FILE := [PyStr <$> COLUMNS]]> (files w);
                trace := trace w |}).
Proof.
  intros Hnone. unfold initialize_store, to_csv. run. rewrite Hnone.
  reflexivity.
Qed.

Lemma initialize_store_existing io w :
  is_Some (files w !! CSV_FILE) → initialize_store io w = (Ret tt, w).
Proof.
  intros Hsome. unfold initialize_store. run.
  rewrite bool_decide_eq_true_2 by done. reflexivity.
Qed.

(** Running the bootstrap again after a run that returned changes nothing. *)
Lemma initialize_store_again io io' w w' :
  initialize_store io w = (Ret tt, w') →
  initialize_store io' w' = (Ret tt, w').
Proof.
  intros Hrun. apply initialize_store_existing.
  destruct (files w !! CSV_FILE) as [f|] eqn:Hf.
  - rewrite initialize_store_existing in Hrun by (rewrite Hf; eauto).
    injection Hrun as <-. rewrite Hf. eauto.
  - destruct io as [|msg].
    + rewrite initialize_store_fresh in Hrun by done.
      injection Hrun as <-. simpl. rewrite lookup_insert_eq. eauto.
    + unfold initialize_store, to_csv in Hrun. run. rewrite Hf in Hrun.
      discriminate Hrun.
Qed.

(** C5: store initialisation is idempotent.  With no file at the store path
    it creates one holding exactly the header row of the 11 column names in
    their order; with a file there it leaves every file untouched; and a
    second run after the first leaves the file with that single header row. *)
Theorem initialize_store_idempotent :
  ∀ (w : world),
    files w !! CSV_FILE = None →
    ∃ w1,
      initialize_store IoOk w = (Ret tt, w1) ∧
      files w1 !! CSV_FILE =
        Some [PyStr <$> ["action"; "auth"; "unid"; "time"; "mag";
                         "flynn_region"; "latitude"; "longitude"; "city";
                         "state"; "country"]] ∧
      (∀ path, path ≠ CSV_FILE → files w1 !! path = files w !! path) ∧
      (∀ io (w2 : world),
         is_Some (files w2 !! CSV_FILE) → initialize_store io w2 = (Ret tt, w2)) ∧
      (∀ io, (initialize_store IoOk ;;; initialize_store io) w = (Ret tt, w1)).
Proof.
  intros w Hnone. eexists. split; [by apply initialize_store_fresh|].
  simpl. split; [by rewrite lookup_insert_eq|].
  split; [by intros path Hne; rewrite lookup_insert_ne|].
  split; [by intros io w2 Hsome; apply initialize_store_existing|].
  intros io. unfold bind. rewrite initialize_store_fresh by done.
  eapply initialize_store_again, initialize_store_fresh, Hnone.
Qed.

(** Every record assembled by [process_message] has the header's columns, in
    the header's order. *)
Lemma make_event_data_columns a b c d e f g h i j k :
  (make_event_data a b c d e f g h i j k).*1 = COLUMNS.
Proof. reflexivity. Qed.

Lemma save_all_ok (rs : list record) w :
  ∃ w',
    save_all ((λ r, (IoOk, r)) <$> rs) w = (Ret tt, w') ∧
    (rs = [] → w' = w) ∧
    (rs ≠ [] →
     files w' = <[CSV_FILE := store w ++ ((λ r, r.*2) <$> rs)]> (files w)).
Proof.
  revert w. induction rs as [|r rs IH]; intros w.
  - exists w. by repeat split.
  - destruct (IH (save_to_csv IoOk r w).2) as (w' & Hrun & Hnil & Hcons).
    exists w'. cbn [fmap list_fmap save_all]. unfold bind at 1.
    rewrite save_to_csv_ok in *. cbn [snd] in *.
    split; [exact Hrun|]. split; [done|]. intros _.
    destruct rs as [|r' rs].
    + rewrite Hnil by done. reflexivity.
    + rewrite Hcons by done. unfold store at 1. cbn [files emit].
      rewrite lookup_insert_eq, insert_insert_eq. cbn [default from_option id].
      by rewrite <- app_assoc.
Qed.

(** C6: append is monotonic.  On a freshly initialised store, N successful
    [save_to_csv] calls with records carrying the header's keys leave the
    file with the header followed by exactly N rows, the i-th row holding the
    values of the i-th call, one per header column and in the header's
    order. *)
Theorem save_to_csv_monotonic :
  ∀ (w : world) (rs : list record),
    files w !! CSV_FILE = None →
    Forall (λ r, r.*1 = COLUMNS) rs →
    ∃ w' data_rows,
      (initialize_store IoOk ;;; save_all ((λ r, (IoOk, r)) <$> rs)) w
        = (Ret tt, w') ∧
      files w' !! CSV_FILE = Some ((PyStr <$> COLUMNS) :: data_rows) ∧
      length data_rows = length rs ∧
      (∀ i r, rs !! i = Some r →
         ∃ row, data_rows !! i = Some row ∧
                length row = 11 ∧ zip COLUMNS row = r).
Proof.
  intros w rs Hnone Hkeys. unfold bind.
  rewrite initialize_store_fresh by done.
  set (w0 := {| files := _; trace := _ |}).
  assert (Hstore : store w0 = [PyStr <$> COLUMNS])
    by (unfold store, w0; simpl; by rewrite lookup_insert_eq).
  destruct (save_all_ok rs w0) as (w' & Hrun & Hnil & Hcons).
  exists w', ((λ r, r.*2) <$> rs). split; [exact Hrun|].
  split; [|split].
  - destruct rs as [|r rs].
    + rewrite Hnil by done. unfold w0. simpl. by rewrite lookup_insert_eq.
    + rewrite Hcons by done. rewrite lookup_insert_eq, Hstore. reflexivity.
  - by rewrite length_fmap.
  - intros i r Hi. exists (r.*2).
    split; [apply list_lookup_fmap_Some; eauto|].
    pose proof (Forall_lookup_1 _ _ _ _ Hkeys Hi) as Hr. cbn beta in Hr.
    split.
    + rewrite length_fmap, <- (length_fmap fst r), Hr. reflexivity.
    + rewrite <- Hr. apply zip_fst_snd.
Qed.

(** ** process_message *)

Section PipelineProperties.

Variable json_loads : string → option pyval.

Lemma subscript_Exception v k e :
  subscript v k = Raise e → is_Exception e = true.
Proof.
  destruct v as [| | | | | |d]; simpl; try (intros [= <-]; reflexivity).
  destruct (d !! k); intros [= <-]; reflexivity.
Qed.

Lemma index_Exception v i e :
  index v i = Raise e → is_Exception e = true.
Proof.
  destruct v as [| | | |s|l|d]; simpl; try (intros [= <-]; reflexivity).
  - destruct (String.get i s); intros [= <-]; reflexivity.
  - destruct (l !! i); intros [= <-]; reflexivity.
Qed.

Lemma setitem_Exception v k x e :
  setitem v k x = Raise e → is_Exception e = true.
Proof. destruct v; simpl; intros [= <-]; reflexivity. Qed.

(** Whatever goes wrong while the message is taken apart is an [Exception],
    so the [except Exception] of [process_message] takes it. *)
Lemma parse_event_Exception parsed e :
  parse_event parsed = Raise e → is_Exception e = true.
Proof.
  unfold parse_event. destruct parsed as [data|]; [|by intros [= <-]].
  destruct (subscript data "data") as [d|e0] eqn:H1;
    [|intros [= <-]; eauto using subscript_Exception].
  destruct (subscript d "properties") as [info|e0] eqn:H2;
    [|intros [= <-]; eauto using subscript_Exception].
  destruct (subscript data "action") as [action|e0] eqn:H3;
    [|intros [= <-]; eauto using subscript_Exception].
  destruct (setitem info "action" action) as [info'|e0] eqn:H4;
    [|intros [= <-]; eauto using setitem_Exception].
  destruct (subscript d "geometry") as [g|e0] eqn:H5;
    [|intros [= <-]; eauto using subscript_Exception].
  destruct (subscript g "coordinates") as [c|e0] eqn:H6;
    [|intros [= <-]; eauto using subscript_Exception].
  destruct (index c 1) as [lat|e0] eqn:H7;
    [|intros [= <-]; eauto using index_Exception].
  destruct (index c 0) as [lon|e0] eqn:H8;
    [|intros [= <-]; eauto using index_Exception].
  discriminate.
Qed.

(** [process_message_try] is [parse_event] followed by [enrich_and_save]. *)
Lemma process_message_try_split rev io message w :
  process_message_try json_loads rev io message w =
    match parse_event (json_loads message) with
    | Ret (info, latitude, longitude) =>
        enrich_and_save rev io info latitude longitude w
    | Raise e => (Raise e, w)
    end.
Proof.
  unfold process_message_try, parse_event, enrich_and_save. run.
  destruct (json_loads message) as [data|]; [|reflexivity].
  destruct (subscript data "data") as [d|]; [|reflexivity].
  destruct (subscript d "properties") as [info|]; [|reflexivity].
  destruct (subscript data "action") as [action|]; [|reflexivity].
  destruct (setitem info "action" action) as [info'|]; [|reflexivity].
  destruct (subscript d "geometry") as [g|]; [|reflexivity].
  destruct (subscript g "coordinates") as [c|]; [|reflexivity].
  destruct (index c 1) as [lat|]; [|reflexivity].
  destruct (index c 0) as [lon|]; reflexivity.
Qed.

(** A message that cannot be taken apart is logged with the exception and
    dropped: no file changes, nothing is raised. *)
Lemma process_message_discards rev io message w e :
  parse_event (json_loads message) = Raise e →
  process_message json_loads rev io message w =
    (Ret PyNone, emit (Log ERROR MsgProcessingError (Some e)) w).
Proof.
  intros Hparse. unfold process_message, try_except, bind.
  rewrite process_message_try_split, Hparse.
  rewrite (parse_event_Exception _ _ Hparse). reflexivity.
Qed.

Lemma well_formed_inv data action props coords :
  well_formed data action props coords →
  ∃ top dat geom lon lat,
    data = PyDict top ∧ top !! "action" = Some action ∧
    top !! "data" = Some (PyDict dat) ∧
    dat !! "properties" = Some (PyDict props) ∧
    dat !! "geometry" = Some (PyDict geom) ∧
    geom !! "coordinates" = Some (PyList coords) ∧
    coords !! 0 = Some lon ∧ coords !! 1 = Some lat.
Proof.
  intros (Haction & Hprops & Hcoords & Hlen). cbn [lookup_path] in *.
  destruct data as [| | | | | |top]; try discriminate Haction.
  destruct (top !! "action") as [action'|] eqn:Ha; [|discriminate Haction].
  destruct (top !! "data") as [[| | | | | |dat]|] eqn:Hd;
    try discriminate Hprops.
  destruct (dat !! "properties") as [props'|] eqn:Hp; [|discriminate Hprops].
  destruct (dat !! "geometry") as [[| | | | | |geom]|] eqn:Hg;
    try discriminate Hcoords.
  destruct (geom !! "coordinates") as [coords'|] eqn:Hc;
    [|discriminate Hcoords].
  destruct coords as [|lon [|lat rest]]; simpl in Hlen; try lia.
  exists top, dat, geom, lon, lat. simplify_eq. by repeat split.
Qed.

Lemma parse_event_well_formed data action props coords lon lat :
  well_formed data action props coords →
  coords !! 0 = Some lon → coords !! 1 = Some lat →
  parse_event (Some data) =
    Ret (PyDict (<["action" := action]> props), lat, lon).
Proof.
  intros Hwf Hlon Hlat.
  destruct (well_formed_inv _ _ _ _ Hwf)
    as (top & dat & geom & lon' & lat' & -> & Ha & Hd & Hp & Hg & Hc & _).
  unfold parse_event. cbn [subscript]. rewrite Hd, Ha. cbn [subscript].
  rewrite Hp, Hg. cbn [setitem subscript]. rewrite Hc. cbn [index].
  rewrite Hlat, Hlon. reflexivity.
Qed.

(** A well-formed message goes through the lookup and reaches
    [save_to_csv] with the record of its fields. *)
Lemma process_message_well_formed rev io message data action props coords
    lon lat city state country w w1 :
  json_loads message = Some data →
  well_formed data action props coords →
  coords !! 0 = Some lon → coords !! 1 = Some lat →
  get_location rev lat lon w = (Ret (city, state, country), w1) →
  process_message json_loads rev io message w =
    (Ret PyNone,
     (save_to_csv io
        (event_record action props lat lon city state country) w1).2).
Proof.
  intros Hloads Hwf Hlon Hlat Hloc. unfold process_message, try_except.
  unfold bind at 1. rewrite process_message_try_split, Hloads.
  rewrite (parse_event_well_formed _ _ _ _ _ _ Hwf Hlon Hlat).
  unfold enrich_and_save. unfold bind at 1. rewrite Hloc.
  cbn [dict_get]. run.
  rewrite lookup_insert_eq, !lookup_insert_ne by done.
  unfold event_record.
  destruct io as [|msg]; [rewrite save_to_csv_ok|rewrite save_to_csv_error];
    reflexivity.
Qed.

(** The cells of a saved row, column by column. *)
Lemma event_record_cells action props lat lon city state country :
  let row := (event_record action props lat lon city state country).*2 in
  length row = 11 ∧
  cell "action" row = Some action ∧
  cell "auth" row = Some (default PyNone (props !! "auth")) ∧
  cell "unid" row = Some (default PyNone (props !! "unid")) ∧
  cell "time" row = Some (default PyNone (props !! "time")) ∧
  cell "mag" row = Some (default PyNone (props !! "mag")) ∧
  cell "flynn_region" row = Some (default PyNone (props !! "flynn_region")) ∧
  cell "latitude" row = Some lat ∧
  cell "longitude" row = Some lon ∧
  cell "city" row = Some city ∧
  cell "state" row = Some state ∧
  cell "country" row = Some country.
Proof. repeat split. Qed.

Lemma process_message_saves rev message data action props coords
    lon lat city state country logged w :
  json_loads message = Some data →
  well_formed data action props coords →
  coords !! 0 = Some lon → coords !! 1 = Some lat →
  get_location rev lat lon w =
    (Ret (city, state, country),
     {| files := files w; trace := trace w ++ logged |}) →
  ∃ w',
    process_message json_loads rev IoOk message w = (Ret PyNone, w') ∧
    store w' =
      store w ++ [(event_record action props lat lon city state country).*2] ∧
    (∀ path, path ≠ CSV_FILE → files w' !! path = files w !! path).
Proof.
  intros Hloads Hwf Hlon Hlat Hloc. eexists. split.
  - eapply process_message_well_formed; eauto.
  - rewrite save_to_csv_ok. cbn [snd]. split.
    + unfold store at 1. cbn [files emit]. by rewrite lookup_insert_eq.
    + intros path Hne. cbn [files emit]. by rewrite lookup_insert_ne.
Qed.

(** C1: for every well-formed message, the row that is persisted has the
    second element of the coordinate array under [latitude] and the first
    under [longitude]. *)
Theorem process_message_latitude_longitude :
  ∀ rev message data action props coords w,
    json_loads message = Some data →
    well_formed data action props coords →
    lookup_outcome rev = true →
    ∃ lon lat row w',
      coords !! 0 = Some lon ∧ coords !! 1 = Some lat ∧
      process_message json_loads rev IoOk message w = (Ret PyNone, w') ∧
      store w' = store w ++ [row] ∧
      cell "latitude" row = Some lat ∧
      cell "longitude" row = Some lon.
Proof.
  intros rev message data action props coords w Hloads Hwf Hrev.
  destruct (well_formed_inv _ _ _ _ Hwf)
    as (top & dat & geom & lon & lat & _ & _ & _ & _ & _ & _ & Hlon & Hlat).
  destruct (get_location_returns rev lat lon w Hrev)
    as ([[city state] country] & logged & Hloc).
  destruct (process_message_saves _ _ _ _ _ _ _ _ _ _ _ _ _
              Hloads Hwf Hlon Hlat Hloc) as (w' & Hrun & Hstore & _).
  exists lon, lat,
    ((event_record action props lat lon city state country).*2), w'.
  by repeat split.
Qed.

(** The message can be taken apart only if every nested path is there. *)
Lemma parse_event_paths data x :
  parse_event (Some data) = Ret x →
  is_Some (lookup_path ["data"] data) ∧
  is_Some (lookup_path ["data"; "properties"] data) ∧
  is_Some (lookup_path ["data"; "geometry"] data) ∧
  is_Some (lookup_path ["data"; "geometry"; "coordinates"] data).
Proof.
  unfold parse_event. cbn [lookup_path].
  destruct data as [| | | | | |top]; try discriminate. cbn [subscript].
  destruct (top !! "data") as [d|]; [|discriminate].
  destruct d as [| | | | | |dat]; try discriminate. cbn [subscript].
  destruct (dat !! "properties") as [info|]; [|discriminate].
  destruct (top !! "action") as [action|]; [|discriminate].
  destruct (setitem info "action" action); [|discriminate].
  destruct (dat !! "geometry") as [g|]; [|discriminate].
  destruct g as [| | | | | |geom]; try discriminate. cbn [subscript].
  destruct (geom !! "coordinates") as [c|]; [|discriminate].
  intros _. repeat split; eauto.
Qed.

Lemma parse_event_malformed parsed :
  malformed parsed → ∃ e, parse_event parsed = Raise e.
Proof.
  destruct parsed as [data|]; [|by exists JSONDecodeError].
  intros Hbad. destruct (parse_event (Some data)) as [x|e] eqn:Hparse;
    [|by exists e].
  destruct (parse_event_paths _ _ Hparse) as ([? H1] & [? H2] & [? H3] & [? H4]).
  cbn [malformed] in Hbad. rewrite H1, H2, H3, H4 in Hbad.
  destruct Hbad as [|[|[|]]]; discriminate.
Qed.

(** C2: a message that is not JSON, or lacks [data], [data.properties],
    [data.geometry] or [data.geometry.coordinates], appends no row (no file
    changes), is logged with the exception that was caught, and
    [process_message] returns without raising. *)
Theorem process_message_malformed :
  ∀ rev io message w,
    malformed (json_loads message) →
    ∃ e w',
      process_message json_loads rev io message w = (Ret PyNone, w') ∧
      files w' = files w ∧
      trace w' = trace w ++ [Log ERROR MsgProcessingError (Some e)].
Proof.
  intros rev io message w Hbad.
  destruct (parse_event_malformed _ Hbad) as [e Hparse].
  exists e. eexists. split; [by apply process_message_discards|].
  split; reflexivity.
Qed.

(** C10: with fewer than two coordinates in an otherwise well-formed
    message, the [IndexError] of the index access is caught: no file
    changes, the error is logged, nothing is raised. *)
Theorem process_message_short_coordinates :
  ∀ rev io message data action props coords w,
    json_loads message = Some data →
    lookup_path ["action"] data = Some action →
    lookup_path ["data"; "properties"] data = Some (PyDict props) →
    lookup_path ["data"; "geometry"; "coordinates"] data
      = Some (PyList coords) →
    length coords < 2 →
    ∃ w',
      process_message json_loads rev io message w = (Ret PyNone, w') ∧
      files w' = files w ∧
      trace w' = trace w ++ [Log ERROR MsgProcessingError (Some IndexError)].
Proof.
  intros rev io message data action props coords w
    Hloads Haction Hprops Hcoords Hlen.
  exists (emit (Log ERROR MsgProcessingError (Some IndexError)) w).
  split; [|split; reflexivity].
  apply process_message_discards. rewrite Hloads.
  cbn [lookup_path] in *.
  destruct data as [| | | | | |top]; try discriminate Haction.
  destruct (top !! "action") as [action'|] eqn:Ha; [|discriminate Haction].
  destruct (top !! "data") as [[| | | | | |dat]|] eqn:Hd;
    try discriminate Hprops.
  destruct (dat !! "properties") as [props'|] eqn:Hp; [|discriminate Hprops].
  destruct (dat !! "geometry") as [[| | | | | |geom]|] eqn:Hg;
    try discriminate Hcoords.
  destruct (geom !! "coordinates") as [coords'|] eqn:Hc;
    [|discriminate Hcoords].
  simplify_eq. unfold parse_event. cbn [subscript].
  rewrite Hd, Ha. cbn [subscript]. rewrite Hp, Hg.
  cbn [setitem subscript]. rewrite Hc. cbn [index].
  destruct coords as [|lon [|lat rest]]; simpl in Hlen; [done|done|lia].
Qed.


(** Without an address to read, for whatever reason, the three values are
    empty strings. *)
Lemma get_location_without_address_of rev lat lon w :
  lookup_outcome rev = true → address_of rev = None →
  (get_location rev lat lon w).1 = Ret (EMPTY, EMPTY, EMPTY).
Proof.
  intros Hrev Hnone. unfold get_location, get_location_try. run.
  destruct rev as [|raw|e]; cbn [lookup_outcome] in Hrev.
  - reflexivity.
  - destruct (truthy raw); [|reflexivity].
    destruct raw as [| | | | | |d]; try reflexivity.
    cbn [dict_get address_of] in *.
    destruct (d !! "address") as [[| | | | | |a]|]; try discriminate Hnone;
      reflexivity.
  - destruct e; try discriminate Hrev; reflexivity.
Qed.

(** C3, as the code has it: whatever the lookup does (an answer, complete or
    partial, no answer, a timeout, an error), [get_location] raises nothing
    and returns three values; a timeout is logged as a warning and another
    failure as an error, both giving empty strings; each value is what the
    address holds under its key (city, else town, else village; state;
    country) or the empty string where there is none, so it is a string
    whenever the address components are text; and the record is persisted
    with the three values in its [city], [state] and [country] cells. *)
Theorem get_location_three_values :
  ∀ rev lat lon w,
    lookup_outcome rev = true →
    ∃ (city state country : pyval) (logged : list event),
      get_location rev lat lon w =
        (Ret (city, state, country),
         {| files := files w; trace := trace w ++ logged |}) ∧
      (rev = ReverseRaises GeocoderTimedOut →
         logged = [Log WARNING (MsgGeocoderTimedOut lat lon) None] ∧
         city = PyStr "" ∧ state = PyStr "" ∧ country = PyStr "") ∧
      (∀ e, rev = ReverseRaises e → e ≠ GeocoderTimedOut →
         logged = [Log ERROR (MsgLocationError lat lon e) None] ∧
         city = PyStr "" ∧ state = PyStr "" ∧ country = PyStr "") ∧
      (∀ a, address_of rev = Some a →
         city = city_policy a ∧
         state = field_or_empty a "state" ∧
         country = field_or_empty a "country") ∧
      (address_of rev = None →
         city = PyStr "" ∧ state = PyStr "" ∧ country = PyStr "") ∧
      (textual_address rev = true →
         ∃ c s k : string,
           city = PyStr c ∧ state = PyStr s ∧ country = PyStr k) ∧
      (∀ message data action props coords,
         json_loads message = Some data →
         well_formed data action props coords →
         coords !! 0 = Some lon → coords !! 1 = Some lat →
         ∃ row w',
           process_message json_loads rev IoOk message w = (Ret PyNone, w') ∧
           store w' = store w ++ [row] ∧
           cell "city" row = Some city ∧
           cell "state" row = Some state ∧
           cell "country" row = Some country).
Proof.
  intros rev lat lon w Hrev.
  destruct (get_location_returns rev lat lon w Hrev)
    as ([[city state] country] & logged & Hloc).
  exists city, state, country, logged. split; [exact Hloc|].
  split; [|split; [|split; [|split; [|split]]]].
  - intros ->. rewrite get_location_timeout in Hloc.
    injection Hloc as Hc Hs Hk Ht. apply app_inv_head in Ht. by subst.
  - intros e -> Hne. rewrite get_location_failure in Hloc by done.
    injection Hloc as Hc Hs Hk Ht. apply app_inv_head in Ht. by subst.
  - intros a Ha. unfold address_of in Ha.
    destruct rev as [|[| | | | | |d]|]; try discriminate Ha.
    destruct (d !! "address") as [[| | | | | |a']|] eqn:Hd;
      try discriminate Ha.
    injection Ha as ->. rewrite (get_location_address d a lat lon w Hd) in Hloc.
    rewrite city_policy_default, !field_or_empty_default in Hloc.
    injection Hloc as Hc Hs Hk _. by rewrite Hc, Hs, Hk.
  - intros Hnone.
    pose proof (get_location_without_address_of rev lat lon w Hrev Hnone)
      as Hempty.
    rewrite Hloc in Hempty. injection Hempty as -> -> ->. by repeat split.
  - intros Htxt.
    destruct (get_location_strings rev lat lon w Hrev Htxt)
      as (c & s & k & logged' & Hloc').
    rewrite Hloc in Hloc'. injection Hloc' as -> -> -> _. by exists c, s, k.
  - intros message data action props coords Hloads Hwf Hlon Hlat.
    destruct (process_message_saves _ _ _ _ _ _ _ _ _ _ _ _ _
                Hloads Hwf Hlon Hlat Hloc) as (w' & Hrun & Hstore & _).
    exists ((event_record action props lat lon city state country).*2), w'.
    by repeat split.
Qed.

Lemma parse_event_info parsed info lat lon :
  parse_event parsed = Ret (info, lat, lon) → ∃ m, info = PyDict m.
Proof.
  unfold parse_event. destruct parsed as [data|]; [|discriminate].
  destruct (subscript data "data") as [d|]; [|discriminate].
  destruct (subscript d "properties") as [i0|]; [|discriminate].
  destruct (subscript data "action") as [action|]; [|discriminate].
  destruct i0 as [| | | | | |m]; try discriminate. cbn [setitem].
  destruct (subscript d "geometry") as [g|]; [|discriminate].
  destruct (subscript g "coordinates") as [c|]; [|discriminate].
  destruct (index c 1); [|discriminate].
  destruct (index c 0); [|discriminate].
  intros [= <- _ _]. eauto.
Qed.

(** With a lookup that is not interrupted, [process_message] returns
    whatever the message and the file system do; a failed write leaves the
    files as they were. *)
Lemma process_message_returns rev io message w :
  lookup_outcome rev = true →
  ∃ w',
    process_message json_loads rev io message w = (Ret PyNone, w') ∧
    (io ≠ IoOk → files w' = files w).
Proof.
  intros Hrev.
  destruct (parse_event (json_loads message)) as [[[info lat] lon]|e]
    eqn:Hparse.
  - destruct (parse_event_info _ _ _ _ Hparse) as [m ->].
    destruct (get_location_returns rev lat lon w Hrev)
      as ([[city state] country] & logged & Hloc).
    unfold process_message, try_except. unfold bind at 1.
    rewrite process_message_try_split, Hparse. unfold enrich_and_save.
    unfold bind at 1. rewrite Hloc. cbn [dict_get]. run.
    destruct io as [|msg].
    + rewrite save_to_csv_ok. eexists. split; [reflexivity|done].
    + rewrite save_to_csv_error. eexists. split; [reflexivity|done].
  - rewrite (process_message_discards _ _ _ _ _ Hparse).
    eexists. split; [reflexivity|done].
Qed.

(** C4, as the code has it: on an I/O error [save_to_csv] logs the error,
    raises nothing and returns [None], the value it returns on success too;
    no file changes, so the record is lost; [process_message] returns and the
    callbacks that follow are still made. *)
Theorem save_to_csv_io_error :
  ∀ msg r w,
    save_to_csv (IoError msg) r w =
      (Ret PyNone, emit (Log ERROR (MsgSaveError (OSError msg)) None) w) ∧
    (save_to_csv IoOk r w).1 = Ret PyNone ∧
    (∀ rev message,
       lookup_outcome rev = true →
       ∃ w', process_message json_loads rev (IoError msg) message w
               = (Ret PyNone, w') ∧
             files w' = files w) ∧
    (∀ rev message rest,
       lookup_outcome rev = true →
       ∃ w', files w' = files w ∧
             callbacks json_loads (WsMessage message rev (IoError msg) :: rest) w
               = callbacks json_loads rest w').
Proof.
  intros msg r w. split; [apply save_to_csv_error|].
  split; [by rewrite save_to_csv_ok|]. split.
  - intros rev message Hrev.
    destruct (process_message_returns rev (IoError msg) message w Hrev)
      as (w' & Hrun & Hfiles).
    exists w'. split; [exact Hrun|]. by apply Hfiles.
  - intros rev message rest Hrev.
    destruct (process_message_returns rev (IoError msg) message w Hrev)
      as (w' & Hrun & Hfiles).
    exists w'. split; [by apply Hfiles|].
    cbn [callbacks callback]. unfold on_message, bind. by rewrite Hrun.
Qed.

End PipelineProperties.

(** ** The reconnect loop *)

Section LoopProperties.

Variable json_loads : string → option pyval.

Lemma callbacks_return evs w :
  forallb event_ok evs = true →
  ∃ w', callbacks json_loads evs w = (Ret tt, w').
Proof.
  revert w. induction evs as [|ev evs IH]; intros w Hok; [by exists w|].
  cbn [forallb] in Hok. apply andb_true_iff in Hok as [Hev Hevs].
  cbn [callbacks]. unfold bind at 1.
  destruct ev as [|message rev io|error|code msg]; cbn [callback event_ok] in *.
  - apply IH, Hevs.
  - destruct (process_message_returns json_loads rev io message w Hev)
      as (w1 & Hrun & _).
    unfold on_message, bind. rewrite Hrun. apply IH, Hevs.
  - apply IH, Hevs.
  - apply IH, Hevs.
Qed.

(** When [run_forever] returns, the next connection is attempted at once:
    nothing is logged by the loop and there is no sleep. *)
Lemma start_websocket_after_return s rest w w1 :
  run_forever json_loads s w = (Ret tt, w1) →
  start_websocket json_loads (s :: rest) w = start_websocket json_loads rest w1.
Proof.
  intros Hrun. cbn [start_websocket].
  unfold start_websocket_turn, try_except, bind. by rewrite Hrun.
Qed.

(** When an [Exception] leaves [run_forever], it is logged and, the sleep
    of 5 seconds having lasted its time, the next connection is attempted. *)
Lemma start_websocket_after_exception s rest w w1 e :
  run_forever json_loads s w = (Raise e, w1) →
  is_Exception e = true →
  ws_sleep s = SleepDone →
  start_websocket json_loads (s :: rest) w =
    start_websocket json_loads rest
      (emit (Sleep 5) (emit (Log ERROR MsgUnexpectedError (Some e)) w1)).
Proof.
  intros Hrun He Hsleep. cbn [start_websocket].
  unfold start_websocket_turn, try_except, bind. rewrite Hrun, Hsleep.
  destruct e; try discriminate He; reflexivity.
Qed.

(** A [KeyboardInterrupt] leaving [run_forever] ends the loop. *)
Lemma start_websocket_after_interrupt s rest w w1 :
  run_forever json_loads s w = (Raise KeyboardInterrupt, w1) →
  start_websocket json_loads (s :: rest) w =
    Returned (emit (Log INFO MsgShuttingDown None) w1).
Proof.
  intros Hrun. cbn [start_websocket].
  unfold start_websocket_turn, try_except, bind. by rewrite Hrun.
Qed.

(** The loop returns only after a [KeyboardInterrupt]. *)
Lemma start_websocket_returned sessions w w' :
  start_websocket json_loads sessions w = Returned w' →
  ∃ s w0 w1,
    s ∈ sessions ∧
    run_forever json_loads s w0 = (Raise KeyboardInterrupt, w1) ∧
    w' = emit (Log INFO MsgShuttingDown None) w1.
Proof.
  revert w. induction sessions as [|s rest IH]; intros w; [discriminate|].
  cbn [start_websocket]. unfold start_websocket_turn, try_except.
  unfold bind at 1.
  destruct (run_forever json_loads s w) as [[[]|e] w1] eqn:Hrun.
  - cbn. intros Hrest. destruct (IH _ Hrest) as (s' & w0 & w2 & Hin & H).
    exists s', w0, w2. split; [by right|exact H].
  - destruct e, (ws_sleep s); cbn; try discriminate;
      try (intros [= <-]; exists s, w, w1; split; [by left|done]);
      intros Hrest; destruct (IH _ Hrest) as (s' & w0 & w2 & Hin & H);
      exists s', w0, w2; (split; [by right|exact H]).
Qed.

(** There is no bound on the retries: as long as no interrupt arrives, the
    loop is still running after any number of connections. *)
Lemma start_websocket_retries sessions w :
  forallb session_retries sessions = true →
  ∃ w', start_websocket json_loads sessions w = StillRunning w'.
Proof.
  revert w. induction sessions as [|s rest IH]; intros w Hok; [by exists w|].
  cbn [forallb] in Hok. apply andb_true_iff in Hok as [Hs Hrest].
  apply andb_true_iff in Hs as [Hevs Hend].
  destruct (callbacks_return (ws_events s)
              (emit (RunForever websocket_url PING_INTERVAL) w) Hevs)
    as [w1 Hcb].
  destruct (ws_ending s) as [e|] eqn:He.
  - apply andb_true_iff in Hend as [Hend Hsleep].
    rewrite (start_websocket_after_exception s rest w w1 e);
      [by apply IH| |done|by destruct (ws_sleep s)].
    unfold run_forever, bind. by rewrite Hcb, He.
  - rewrite (start_websocket_after_return s rest w w1); [by apply IH|].
    unfold run_forever, bind. by rewrite Hcb, He.
Qed.

End LoopProperties.

(** ** Examples: the scenarios of the specification *)

(** End-to-end scenario 1 of the specification. *)
Example scenario_1_persisted :
  store (process_message json_loads_examples athens IoOk scenario_1
           initialized_world).2
  = [PyStr <$> COLUMNS; scenario_1_row].
Proof. vm_compute. reflexivity. Qed.

(** End-to-end scenario 2: the lookup times out. *)
Example scenario_2_timeout :
  process_message json_loads_examples (ReverseRaises GeocoderTimedOut) IoOk
    scenario_1 initialized_world
  = save_to_csv IoOk
      (event_record (PyStr "create") scenario_1_properties
         (PyFloat 37.9) (PyFloat 23.7) EMPTY EMPTY EMPTY)
      (emit (Log WARNING
               (MsgGeocoderTimedOut (PyFloat 37.9) (PyFloat 23.7)) None)
         initialized_world).
Proof. vm_compute. reflexivity. Qed.

(** End-to-end scenario 3: no [geometry], nothing persisted, an error logged. *)
Example scenario_3_dropped :
  process_message json_loads_examples athens IoOk scenario_3 initialized_world
  = (Ret PyNone,
     emit (Log ERROR MsgProcessingError
             (Some (KeyError (PyStr "geometry")))) initialized_world).
Proof. vm_compute. reflexivity. Qed.

(** The example messages have the shape of the feed. *)
Lemma scenario_1_well_formed :
  well_formed scenario_1_data (PyStr "create") scenario_1_properties
    scenario_1_coordinates.
Proof. repeat split. vm_compute. lia. Defined.


(** Scenario 1 is persisted with latitude 37.9 and longitude 23.7. *)
Lemma process_message_latitude_longitude_witness :
  ∃ lon lat row w',
    scenario_1_coordinates !! 0 = Some lon ∧
    scenario_1_coordinates !! 1 = Some lat ∧
    process_message json_loads_examples athens IoOk scenario_1
      initialized_world = (Ret PyNone, w') ∧
    store w' = store initialized_world ++ [row] ∧
    cell "latitude" row = Some lat ∧
    cell "longitude" row = Some lon.
Proof.
  apply (process_message_latitude_longitude json_loads_examples athens
           scenario_1 scenario_1_data (PyStr "create") scenario_1_properties
           scenario_1_coordinates initialized_world).
  - vm_compute. reflexivity.
  - exact scenario_1_well_formed.
  - reflexivity.
Defined.

(** Scenario 3, which lacks [geometry], is logged and dropped. *)
Lemma process_message_malformed_witness :
  ∃ e w',
    process_message json_loads_examples athens IoOk scenario_3
      initialized_world = (Ret PyNone, w') ∧
    files w' = files initialized_world ∧
    trace w' = trace initialized_world
               ++ [Log ERROR MsgProcessingError (Some e)].
Proof.
  apply (process_message_malformed json_loads_examples athens IoOk
           scenario_3 initialized_world).
  vm_compute. right. right. left. reflexivity.
Defined.

(** The answer for Athens comes back as its three strings. *)
Lemma get_location_three_values_witness :
  ∃ (city state country : pyval) (logged : list event),
    get_location athens (PyFloat 37.9) (PyFloat 23.7) initialized_world =
      (Ret (city, state, country),
       {| files := files initialized_world;
          trace := trace initialized_world ++ logged |}) ∧
    city = PyStr "Athens" ∧ state = PyStr "Attica" ∧
    country = PyStr "Greece".
Proof.
  destruct (get_location_three_values json_loads_examples athens
              (PyFloat 37.9) (PyFloat 23.7) initialized_world)
    as (city & state & country & logged & Hloc & _ & _ & Haddress & _).
  - reflexivity.
  - exists city, state, country, logged. split; [exact Hloc|].
    apply (Haddress athens_address). vm_compute. reflexivity.
Defined.

(** C3 as stated fails: when the service answers [null] for the city,
    [get_location] hands the [None] on, so the three values are not three
    strings, and the record of scenario 1 is persisted with [None] in its
    [city] cell. *)
Lemma get_location_null_city :
  lookup_outcome answer_with_null_city = true ∧
  (get_location answer_with_null_city (PyFloat 37.9) (PyFloat 23.7)
     initialized_world).1
    = Ret (PyNone, PyStr "", PyStr "Greece") ∧
  ¬ three_strings
      (get_location answer_with_null_city (PyFloat 37.9) (PyFloat 23.7)
         initialized_world).1 ∧
  store (process_message json_loads_examples answer_with_null_city IoOk
           scenario_1 initialized_world).2 !! 1 ≫= cell "city"
    = Some PyNone.
Proof.
  assert (Hloc : (get_location answer_with_null_city (PyFloat 37.9)
                    (PyFloat 23.7) initialized_world).1
                 = Ret (PyNone, PyStr "", PyStr "Greece"))
    by (vm_compute; reflexivity).
  split; [reflexivity|]. split; [exact Hloc|]. split.
  - rewrite Hloc. intros (city & state & country & Heq). discriminate Heq.
  - vm_compute. reflexivity.
Qed.

(** Initialising twice on a machine without the file leaves one header. *)
Lemma initialize_store_idempotent_witness :
  ∃ w1,
    initialize_store IoOk fresh_world = (Ret tt, w1) ∧
    files w1 !! CSV_FILE = Some [PyStr <$> COLUMNS] ∧
    (initialize_store IoOk ;;; initialize_store IoOk) fresh_world
      = (Ret tt, w1).
Proof.
  destruct (initialize_store_idempotent fresh_world)
    as (w1 & Hrun & Hfile & _ & _ & Htwice).
  - reflexivity.
  - exists w1. split; [exact Hrun|]. split; [exact Hfile|apply Htwice].
Defined.

(** Two appends after initialisation: the header and two rows. *)
Lemma save_to_csv_monotonic_witness :
  ∃ w' data_rows,
    (initialize_store IoOk ;;; save_all ((λ r, (IoOk, r)) <$> two_records))
      fresh_world = (Ret tt, w') ∧
    files w' !! CSV_FILE = Some ((PyStr <$> COLUMNS) :: data_rows) ∧
    length data_rows = 2.
Proof.
  destruct (save_to_csv_monotonic fresh_world two_records)
    as (w' & data_rows & Hrun & Hfile & Hlen & _).
  - reflexivity.
  - repeat constructor.
  - exists w', data_rows. split; [exact Hrun|]. split; [exact Hfile|exact Hlen].
Defined.

(** A village without city or town is the city; the missing state is empty. *)
Lemma get_location_extraction_policy_witness :
  get_location
    (ReverseLocation
       (PyDict {[ "address" := PyDict {[ "village" := PyStr "Oia";
                                         "country" := PyStr "Greece" ]} ]}))
    (PyFloat 37.9) (PyFloat 23.7) fresh_world
  = (Ret (PyStr "Oia", PyStr "", PyStr "Greece"), fresh_world).
Proof.
  rewrite (get_location_extraction_policy
             {[ "address" := PyDict {[ "village" := PyStr "Oia";
                                       "country" := PyStr "Greece" ]} ]}
             {[ "village" := PyStr "Oia"; "country" := PyStr "Greece" ]}).
  - reflexivity.
  - reflexivity.
Defined.


(** The event with one coordinate is logged with [IndexError] and dropped. *)
Lemma process_message_short_coordinates_witness :
  ∃ w',
    process_message json_loads_examples athens IoOk short_event
      initialized_world = (Ret PyNone, w') ∧
    files w' = files initialized_world ∧
    trace w' = trace initialized_world
               ++ [Log ERROR MsgProcessingError (Some IndexError)].
Proof.
  apply (process_message_short_coordinates json_loads_examples athens IoOk
           short_event short_event_data (PyStr "create") ∅ [PyFloat 23.7]
           initialized_world).
  - vm_compute. reflexivity.
  - reflexivity.
  - reflexivity.
  - reflexivity.
  - simpl. lia.
Defined.

(** C4 as stated fails: after a write that raised [OSError] the caller gets
    the very value a successful write returns. *)
Lemma save_to_csv_signals_no_error :
  ¬ signals_error "No space left on device" scenario_1_record
      initialized_world.
Proof. unfold signals_error. intros Hsignal. apply Hsignal. reflexivity. Qed.

(** C8 on a dropped connection: after the close is logged the next
    connection is attempted at once; no 5 second sleep lies between the two
    [run_forever] calls. *)
Theorem start_websocket_reconnects_without_delay :
  start_websocket json_loads_examples
    [dropped_connection; interrupted_connection] fresh_world
  = Returned
      {| files := ∅;
         trace :=
           [RunForever websocket_url PING_INTERVAL;
            Log INFO MsgConnectionOpened None;
            Log ERROR (MsgWebSocketError
                         (OtherError "WebSocketConnectionClosedException"))
              None;
            Log INFO (MsgConnectionClosed PyNone PyNone) None;
            RunForever websocket_url PING_INTERVAL;
            Log INFO MsgShuttingDown None] |}.
Proof.
  rewrite (start_websocket_after_return _ _ _ _
             (emit (Log INFO (MsgConnectionClosed PyNone PyNone) None)
                (emit (Log ERROR (MsgWebSocketError
                         (OtherError "WebSocketConnectionClosedException"))
                         None)
                   (emit (Log INFO MsgConnectionOpened None)
                      (emit (RunForever websocket_url PING_INTERVAL)
                         fresh_world))))) by reflexivity.
  rewrite (start_websocket_after_interrupt _ _ _ _
             (emit (RunForever websocket_url PING_INTERVAL) _))
    by reflexivity.
  reflexivity.
Qed.

(** The sibling path: when the drop leaves [run_forever] as an exception, the
    loop logs it and sleeps 5 seconds before the next connection. *)
Example start_websocket_sleeps_after_exception :
  start_websocket json_loads_examples
    [failed_connection; interrupted_connection] fresh_world
  = Returned
      {| files := ∅;
         trace :=
           [RunForever websocket_url PING_INTERVAL;
            Log INFO MsgConnectionOpened None;
            Log ERROR MsgUnexpectedError
              (Some (OtherError "WebSocketConnectionClosedException"));
            Sleep 5;
            RunForever websocket_url PING_INTERVAL;
            Log INFO MsgShuttingDown None] |}.
Proof. vm_compute. reflexivity. Qed.

(** * Further properties of the code *)

(** ** get_location: the paths around the extraction *)

(** X1: an answer with nothing to extract (no location, an empty [raw], a
    [raw] without ["address"]) gives three empty strings and is silent:
    nothing is logged and no file changes. *)
Theorem get_location_without_address :
  ∀ rev lat lon w,
    answer_without_address rev = true →
    get_location rev lat lon w = (Ret (PyStr "", PyStr "", PyStr ""), w).
Proof.
  intros rev lat lon w Hrev. unfold get_location, get_location_try. run.
  destruct rev as [|raw|e]; cbn [answer_without_address] in Hrev;
    [reflexivity| |discriminate Hrev].
  destruct (truthy raw) eqn:Htruthy; [|reflexivity].
  cbn [negb orb] in Hrev.
  destruct raw as [| | | | | |d]; try discriminate Hrev.
  cbn [dict_get]. destruct (d !! "address"); [discriminate Hrev|].
  simpl. rewrite !lookup_empty. reflexivity.
Qed.

(** X2: a non-empty answer that is not a dict, or whose ["address"] is not a
    dict, makes the [.get] call raise [AttributeError] inside the [try]; it is
    logged as an error and three empty strings are returned. *)
Theorem get_location_malformed_answer :
  ∀ raw lat lon w,
    malformed_answer raw = true →
    get_location (ReverseLocation raw) lat lon w =
      (Ret (PyStr "", PyStr "", PyStr ""),
       emit (Log ERROR (MsgLocationError lat lon AttributeError) None) w).
Proof.
  intros raw lat lon w Hraw. unfold malformed_answer in Hraw.
  apply andb_true_iff in Hraw as [Htruthy Hshape].
  unfold get_location, get_location_try. run. rewrite Htruthy.
  destruct raw as [| | | | | |d]; try reflexivity.
  cbn [dict_get].
  destruct (d !! "address") as [[| | | | | |a]|]; try discriminate Hshape;
    reflexivity.
Qed.

(** X3: [except Exception] does not take an interrupt.  A
    [KeyboardInterrupt] or [SystemExit] raised by the lookup leaves
    [get_location], and for a well-formed message [process_message] too,
    with nothing logged and no file changed. *)
Theorem lookup_interrupt_propagates :
  ∀ json_loads e lat lon w,
    is_Exception e = false →
    get_location (ReverseRaises e) lat lon w = (Raise e, w) ∧
    ∀ io message data action props coords,
      json_loads message = Some data →
      well_formed data action props coords →
      process_message json_loads (ReverseRaises e) io message w = (Raise e, w).
Proof.
  intros json_loads e lat lon w He.
  assert (Hloc : ∀ lat' lon',
            get_location (ReverseRaises e) lat' lon' w = (Raise e, w))
    by (intros lat' lon'; destruct e; try discriminate He; reflexivity).
  split; [apply Hloc|].
  intros io message data action props coords Hloads Hwf.
  destruct (well_formed_inv _ _ _ _ Hwf)
    as (top & dat & geom & lon0 & lat0 & _ & _ & _ & _ & _ & _ & Hlon & Hlat).
  unfold process_message, try_except. unfold bind at 1.
  rewrite process_message_try_split, Hloads.
  rewrite (parse_event_well_formed _ _ _ _ _ _ Hwf Hlon Hlat).
  unfold enrich_and_save. unfold bind at 1. rewrite Hloc.
  destruct e; try discriminate He; reflexivity.
Qed.

(** What [get_location] does to the world, for a lookup that is not
    interrupted: it adds at most one log record and changes no file. *)
Lemma get_location_logs rev lat lon w :
  lookup_outcome rev = true →
  ∃ t logged,
    get_location rev lat lon w =
      (Ret t, {| files := files w; trace := trace w ++ logged |}) ∧
    forallb is_log logged = true.
Proof.
  intros Hrev. unfold get_location, get_location_try. run.
  destruct rev as [|raw|e]; cbn [lookup_outcome] in Hrev.
  - exists (EMPTY, EMPTY, EMPTY), []. by rewrite app_nil_r, world_eta.
  - destruct (truthy raw).
    + destruct raw as [| | | | | |d]; cbn [dict_get];
        try (eexists _, [_]; split; reflexivity).
      destruct (default (PyDict ∅) (d !! "address")) as [| | | | | |a];
        cbn [dict_get]; try (eexists _, [_]; split; reflexivity).
      eexists _, []. by rewrite app_nil_r, world_eta.
    + exists (EMPTY, EMPTY, EMPTY), []. by rewrite app_nil_r, world_eta.
  - destruct e; try discriminate Hrev; eexists _, [_]; split; reflexivity.
Qed.

(** ** process_message: the messages it drops *)

Section DroppedMessages.

Variable json_loads : string → option pyval.

(** X4: a message without the top-level [action] is dropped even when
    everything else is there: the assignment of line 59 raises
    [KeyError('action')], which is logged; no file changes. *)
Theorem process_message_missing_action :
  ∀ rev io message top info w,
    json_loads message = Some (PyDict top) →
    top !! "action" = None →
    lookup_path ["data"; "properties"] (PyDict top) = Some info →
    process_message json_loads rev io message w =
      (Ret PyNone,
       emit (Log ERROR MsgProcessingError
               (Some (KeyError (PyStr "action")))) w).
Proof.
  intros rev io message top info w Hloads Haction Hinfo.
  apply process_message_discards. rewrite Hloads.
  cbn [lookup_path] in Hinfo. unfold parse_event. cbn [subscript].
  destruct (top !! "data") as [[| | | | | |dat]|]; try discriminate Hinfo.
  cbn [subscript]. destruct (dat !! "properties"); [|discriminate Hinfo].
  by rewrite Haction.
Qed.

(** X5: when [properties] is not an object (null, a number, a string, an
    array), the assignment [info['action'] = ...] raises [TypeError]; the
    message is logged and dropped. *)
Theorem process_message_properties_not_object :
  ∀ rev io message data action info w,
    json_loads message = Some data →
    lookup_path ["action"] data = Some action →
    lookup_path ["data"; "properties"] data = Some info →
    is_dict info = false →
    process_message json_loads rev io message w =
      (Ret PyNone, emit (Log ERROR MsgProcessingError (Some TypeError)) w).
Proof.
  intros rev io message data action info w Hloads Haction Hinfo Hdict.
  apply process_message_discards. rewrite Hloads.
  cbn [lookup_path] in *. unfold parse_event.
  destruct data as [| | | | | |top]; try discriminate Haction.
  cbn [subscript].
  destruct (top !! "action") as [action'|]; [|discriminate Haction].
  destruct (top !! "data") as [[| | | | | |dat]|]; try discriminate Hinfo.
  cbn [subscript].
  destruct (dat !! "properties") as [info'|]; [|discriminate Hinfo].
  injection Hinfo as ->.
  destruct info; try discriminate Hdict; reflexivity.
Qed.

(** X6: [coordinates] that is neither an array nor a string cannot be
    indexed: an object raises [KeyError(1)] (its keys are strings), null, a
    boolean or a number raises [TypeError].  Either way the message is logged
    and dropped. *)
Theorem process_message_coordinates_not_indexable :
  ∀ rev io message data action props coords w,
    json_loads message = Some data →
    lookup_path ["action"] data = Some action →
    lookup_path ["data"; "properties"] data = Some (PyDict props) →
    lookup_path ["data"; "geometry"; "coordinates"] data = Some coords →
    is_sequence coords = false →
    process_message json_loads rev io message w =
      (Ret PyNone,
       emit (Log ERROR MsgProcessingError
               (Some (if is_dict coords then KeyError (PyInt 1)
                      else TypeError))) w).
Proof.
  intros rev io message data action props coords w
    Hloads Haction Hprops Hcoords Hseq.
  apply process_message_discards. rewrite Hloads.
  cbn [lookup_path] in *. unfold parse_event.
  destruct data as [| | | | | |top]; try discriminate Haction.
  cbn [subscript].
  destruct (top !! "action") as [action'|]; [|discriminate Haction].
  destruct (top !! "data") as [[| | | | | |dat]|]; try discriminate Hprops.
  cbn [subscript].
  destruct (dat !! "properties") as [info|]; [|discriminate Hprops].
  injection Hprops as ->. cbn [setitem].
  destruct (dat !! "geometry") as [[| | | | | |geom]|];
    try discriminate Hcoords.
  cbn [subscript].
  destruct (geom !! "coordinates") as [coords'|]; [|discriminate Hcoords].
  injection Hcoords as ->.
  destruct coords; try discriminate Hseq; reflexivity.
Qed.

End DroppedMessages.

(** ** process_message: the messages it persists *)

Section PersistedMessages.

Variable json_loads : string → option pyval.

(** X7: end to end on an answer with an address.  A well-formed message
    whose write succeeds adds exactly one row to the store, made of the
    top-level action, the five properties ([None] where missing), latitude,
    longitude and the extracted city, state and country; every other file is
    untouched and the only thing logged is the INFO record of that event. *)
Theorem process_message_with_address :
  ∀ message data action props coords lon lat (d a : gmap string pyval) w,
    json_loads message = Some data →
    well_formed data action props coords →
    coords !! 0 = Some lon → coords !! 1 = Some lat →
    d !! "address" = Some (PyDict a) →
    let r := event_record action props lat lon (city_policy a)
               (field_or_empty a "state") (field_or_empty a "country") in
    process_message json_loads (ReverseLocation (PyDict d)) IoOk message w =
      (Ret PyNone,
       {| files := <[CSV_FILE := store w ++ [r.*2]]> (files w);
          trace := trace w ++ [Log INFO (MsgEventSaved r) None] |}).
Proof.
  intros message data action props coords lon lat d a w
    Hloads Hwf Hlon Hlat Ha r.
  rewrite (process_message_well_formed json_loads _ IoOk _ _ _ _ _ _ _
             (city_policy a) (field_or_empty a "state")
             (field_or_empty a "country") w w Hloads Hwf Hlon Hlat).
  - rewrite save_to_csv_ok. reflexivity.
  - rewrite (get_location_address d a lat lon w Ha).
    by rewrite city_policy_default, !field_or_empty_default.
Qed.

(** X8: end to end on a lookup that fails.  The event is persisted all the
    same, with three empty strings for the location; the trace gets the
    lookup's record (a WARNING for a timeout, an ERROR otherwise) and then the
    INFO record of the event, in that order. *)
Theorem process_message_lookup_failed :
  ∀ message data action props coords lon lat e w,
    json_loads message = Some data →
    well_formed data action props coords →
    coords !! 0 = Some lon → coords !! 1 = Some lat →
    is_Exception e = true →
    let r := event_record action props lat lon
               (PyStr "") (PyStr "") (PyStr "") in
    process_message json_loads (ReverseRaises e) IoOk message w =
      (Ret PyNone,
       {| files := <[CSV_FILE := store w ++ [r.*2]]> (files w);
          trace := trace w ++ [lookup_failure_record lat lon e;
                               Log INFO (MsgEventSaved r) None] |}).
Proof.
  intros message data action props coords lon lat e w
    Hloads Hwf Hlon Hlat He r.
  rewrite (process_message_well_formed json_loads _ IoOk _ _ _ _ _ _ _
             EMPTY EMPTY EMPTY w (emit (lookup_failure_record lat lon e) w)
             Hloads Hwf Hlon Hlat).
  - rewrite save_to_csv_ok. unfold emit, store. cbn [files trace snd].
    by rewrite <- app_assoc.
  - destruct e; try discriminate He; reflexivity.
Qed.

(** The [info] dict is read under six keys only. *)
Lemma enrich_and_save_same_properties rev io action p q lat lon w :
  same_properties p q →
  enrich_and_save rev io (PyDict (<["action" := action]> p)) lat lon w =
  enrich_and_save rev io (PyDict (<["action" := action]> q)) lat lon w.
Proof.
  intros Hsame. unfold enrich_and_save. run.
  destruct (get_location rev lat lon w) as [[[[city state] country]|e] w1];
    [|reflexivity].
  cbn [dict_get].
  rewrite !lookup_insert_eq, !lookup_insert_ne by done.
  rewrite (Hsame "auth"), (Hsame "unid"), (Hsame "time"), (Hsame "mag"),
    (Hsame "flynn_region") by repeat constructor.
  reflexivity.
Qed.

(** X9: [process_message] reads [auth], [unid], [time], [mag] and
    [flynn_region] from the properties and nothing else.  Two well-formed
    messages with the same top-level action, the same coordinates and the same
    values under these five keys have the same effect: any other property,
    and an [action] among the properties, never reaches the store or the
    log. *)
Theorem process_message_reads_five_properties :
  ∀ rev io message1 message2 data1 data2 action p q coords w,
    json_loads message1 = Some data1 →
    json_loads message2 = Some data2 →
    well_formed data1 action p coords →
    well_formed data2 action q coords →
    same_properties p q →
    process_message json_loads rev io message1 w =
    process_message json_loads rev io message2 w.
Proof.
  intros rev io message1 message2 data1 data2 action p q coords w
    Hloads1 Hloads2 Hwf1 Hwf2 Hsame.
  destruct (well_formed_inv _ _ _ _ Hwf1)
    as (top & dat & geom & lon & lat & _ & _ & _ & _ & _ & _ & Hlon & Hlat).
  unfold process_message, try_except, bind.
  rewrite !process_message_try_split, Hloads1, Hloads2.
  rewrite (parse_event_well_formed _ _ _ _ _ _ Hwf1 Hlon Hlat).
  rewrite (parse_event_well_formed _ _ _ _ _ _ Hwf2 Hlon Hlat).
  by rewrite (enrich_and_save_same_properties rev io action p q lat lon w).
Qed.

End PersistedMessages.

(** ** What one message does to the store and to the log *)

Section MessageEffect.

Variable json_loads : string → option pyval.

Lemma forallb_is_log_app l1 l2 :
  forallb is_log l1 = true → forallb is_log l2 = true →
  forallb is_log (l1 ++ l2) = true.
Proof. intros H1 H2. rewrite forallb_app, H1, H2. reflexivity. Qed.

(** The whole effect of [process_message] when the lookup is not
    interrupted: it returns [None]; it only adds log records to the trace;
    and either no file changes and the last record is an ERROR, or the write
    succeeded on a message that could be taken apart, one row with the
    header's columns is appended and the last record is the INFO record of that
    row's event. *)
Lemma process_message_effect rev io message w :
  lookup_outcome rev = true →
  ∃ w' logged,
    process_message json_loads rev io message w = (Ret PyNone, w') ∧
    trace w' = trace w ++ logged ∧
    forallb is_log logged = true ∧
    ((files w' = files w ∧
      (∃ msg exc, last logged = Some (Log ERROR msg exc)) ∧
      (io = IoOk → ∃ e, parse_event (json_loads message) = Raise e))
     ∨
     (∃ r x, io = IoOk ∧ parse_event (json_loads message) = Ret x ∧
             r.*1 = COLUMNS ∧
             files w' = <[CSV_FILE := store w ++ [r.*2]]> (files w) ∧
             last logged = Some (Log INFO (MsgEventSaved r) None))).
Proof.
  intros Hrev.
  destruct (parse_event (json_loads message)) as [[[info lat] lon]|e]
    eqn:Hparse.
  - destruct (parse_event_info _ _ _ _ Hparse) as [m ->].
    destruct (get_location_logs rev lat lon w Hrev)
      as ([[city state] country] & logged & Hloc & Hlogs).
    unfold process_message, try_except. unfold bind at 1.
    rewrite process_message_try_split, Hparse. unfold enrich_and_save.
    unfold bind at 1. rewrite Hloc. cbn [dict_get]. run.
    destruct io as [|msg].
    + rewrite save_to_csv_ok. eexists _, (logged ++ [_]).
      split; [reflexivity|]. cbn [trace emit]. split; [by rewrite app_assoc|].
      split; [by apply forallb_is_log_app|]. right.
      eexists _, _. split; [reflexivity|]. split; [reflexivity|].
      split; [apply make_event_data_columns|].
      split; [reflexivity|]. by rewrite last_snoc.
    + rewrite save_to_csv_error. eexists _, (logged ++ [_]).
      split; [reflexivity|]. cbn [trace emit]. split; [by rewrite app_assoc|].
      split; [by apply forallb_is_log_app|]. left.
      split; [reflexivity|]. split; [|discriminate].
      rewrite last_snoc. eauto.
  - rewrite (process_message_discards _ _ _ _ _ _ Hparse).
    eexists _, [_]. split; [reflexivity|]. split; [reflexivity|].
    split; [reflexivity|]. left. split; [reflexivity|].
    split; [cbn; eauto|eauto].
Qed.







End MessageEffect.

(** ** Invariants of the callbacks and of the reconnect loop *)

Section LoopInvariants.

Variable json_loads : string → option pyval.







Lemma sleeps_app t u : sleeps (t ++ u) = sleeps t ++ sleeps u.
Proof. apply omap_app. Qed.

Lemma connections_app t u :
  connections (t ++ u) = connections t ++ connections u.
Proof. apply omap_app. Qed.

Lemma sleeps_logs t : forallb is_log t = true → sleeps t = [].
Proof.
  induction t as [|[] t IH]; cbn; try discriminate; [done|exact IH].
Qed.

Lemma connections_logs t : forallb is_log t = true → connections t = [].
Proof.
  induction t as [|[] t IH]; cbn; try discriminate; [done|exact IH].
Qed.

Ltac log_callback IH ev w Hevs :=
  let w' := fresh "w'" in
  let logged := fresh "logged" in
  let rows := fresh "rows" in
  let Hrun := fresh "Hrun" in
  let Htrace := fresh "Htrace" in
  let Hlogs := fresh "Hlogs" in
  let Hstore := fresh "Hstore" in
  let Hlen := fresh "Hlen" in
  destruct (IH (emit ev w) Hevs)
    as (w' & logged & rows & Hrun & Htrace & Hlogs & Hstore & Hlen);
  cbn [trace emit] in Htrace;
  exists w', (ev :: logged), rows;
  split; [exact Hrun|];
  split; [by rewrite Htrace, <- app_assoc|];
  split; [exact Hlogs|];
  split; [exact Hstore|exact Hlen].

(** A run of callbacks without an interrupt: it returns, it only logs, and
    the store grows by one row for each message that can be taken apart and
    whose write succeeds. *)
Lemma callbacks_effect evs w :
  forallb event_ok evs = true →
  ∃ w' logged new_rows,
    callbacks json_loads evs w = (Ret tt, w') ∧
    trace w' = trace w ++ logged ∧
    forallb is_log logged = true ∧
    store w' = store w ++ new_rows ∧
    length new_rows = persisted_count json_loads evs.
Proof.
  revert w. induction evs as [|ev evs IH]; intros w Hok.
  - exists w, [], []. by rewrite !app_nil_r.
  - cbn [forallb] in Hok. apply andb_true_iff in Hok as [Hev Hevs].
    cbn [callbacks]. unfold bind at 1.
    destruct ev as [|message rev io|error|code msg];
      cbn [callback event_ok persisted_count] in *.
    + log_callback IH (Log INFO MsgConnectionOpened None) w Hevs.
    + destruct (process_message_effect json_loads rev io message w Hev)
        as (w1 & logged1 & Hrun1 & Htrace1 & Hlogs1 & Hcases).
      unfold on_message, bind. rewrite Hrun1.
      destruct (IH w1 Hevs)
        as (w' & logged & rows & Hrun & Htrace & Hlogs & Hstore & Hlen).
      destruct Hcases
        as [(Hfiles & _ & Hraise)|(r & x & -> & Hparse & _ & Hfiles & _)].
      * exists w', (logged1 ++ logged), rows. split; [exact Hrun|].
        split; [by rewrite Htrace, Htrace1, app_assoc|].
        split; [by apply forallb_is_log_app|].
        split; [by rewrite Hstore; unfold store; rewrite Hfiles|].
        rewrite Hlen. destruct io as [|msg]; [|reflexivity].
        destruct Hraise as [e ->]; reflexivity.
      * exists w', (logged1 ++ logged), (r.*2 :: rows). split; [exact Hrun|].
        split; [by rewrite Htrace, Htrace1, app_assoc|].
        split; [by apply forallb_is_log_app|].
        rewrite Hparse. split; [|by cbn; rewrite Hlen].
        rewrite Hstore. unfold store at 1.
        rewrite Hfiles, lookup_insert_eq. cbn. by rewrite <- app_assoc.
    + log_callback IH (Log ERROR (MsgWebSocketError error) None) w Hevs.
    + log_callback IH (Log INFO (MsgConnectionClosed code msg) None) w Hevs.
Qed.


(** X13: as long as no interrupt arrives the loop goes on, and its trace
    shows one connection attempt per turn, each to the fixed URL with a ping
    interval of 15 seconds, and one sleep of exactly 5 seconds for each
    connection that an exception ended; a connection that [run_forever]
    returned from is followed by no sleep. *)
Theorem start_websocket_connects_and_sleeps :
  ∀ sessions w,
    forallb session_retries sessions = true →
    ∃ w',
      start_websocket json_loads sessions w = StillRunning w' ∧
      connections (trace w') =
        connections (trace w)
        ++ replicate (length sessions)
             ("wss://www.seismicportal.eu/standing_order/websocket", 15%Z) ∧
      sleeps (trace w') =
        sleeps (trace w) ++ replicate (failed_count sessions) 5%Z.
Proof.
  intros sessions. induction sessions as [|s rest IH]; intros w Hok.
  - exists w. by rewrite !app_nil_r.
  - cbn [forallb] in Hok. apply andb_true_iff in Hok as [Hs Hrest].
    apply andb_true_iff in Hs as [Hevs Hend].
    destruct (callbacks_effect (ws_events s)
                (emit (RunForever websocket_url PING_INTERVAL) w) Hevs)
      as (w1 & logged & rows & Hcb & Htrace & Hlogs & _ & _).
    cbn [trace emit] in Htrace. cbn [failed_count length replicate].
    destruct (ws_ending s) as [e|] eqn:He.
    + apply andb_true_iff in Hend as [Hend Hdone].
      rewrite (start_websocket_after_exception json_loads s rest w w1 e);
        [|by unfold run_forever, bind; rewrite Hcb, He|done
         |by destruct (ws_sleep s)].
      destruct (IH (emit (Sleep 5)
                      (emit (Log ERROR MsgUnexpectedError (Some e)) w1)) Hrest)
        as (w' & Hrun & Hconn & Hsleep).
      exists w'. split; [exact Hrun|]. rewrite Hconn, Hsleep.
      cbn [trace emit]. rewrite Htrace.
      rewrite !connections_app, !sleeps_app.
      rewrite (connections_logs logged), (sleeps_logs logged) by done.
      cbn. rewrite !app_nil_r, <- !app_assoc. done.
    + rewrite (start_websocket_after_return json_loads s rest w w1);
        [|by unfold run_forever, bind; rewrite Hcb, He].
      destruct (IH w1 Hrest) as (w' & Hrun & Hconn & Hsleep).
      exists w'. split; [exact Hrun|]. rewrite Hconn, Hsleep, Htrace.
      rewrite !connections_app, !sleeps_app.
      rewrite (connections_logs logged), (sleeps_logs logged) by done.
      cbn. rewrite !app_nil_r, <- !app_assoc. done.
Qed.

End LoopInvariants.

(** ** How the loop ends *)

Section LoopEnds.

Variable json_loads : string → option pyval.

Lemma start_websocket_turn_inv s w c w' :
  start_websocket_turn json_loads s w = (Ret c, w') →
  match c with
  | Break =>
      ∃ w1, run_forever json_loads s w = (Raise KeyboardInterrupt, w1) ∧
            w' = emit (Log INFO MsgShuttingDown None) w1
  | Continue => True
  end.
Proof.
  unfold start_websocket_turn, try_except. unfold bind at 1.
  destruct (run_forever json_loads s w) as [[[]|e] w1] eqn:Hrun.
  - cbn. intros [= <- <-]. exact I.
  - destruct e, (ws_sleep s); cbn; intros [= <- <-]; try exact I;
      by exists w1.
Qed.


Lemma start_websocket_continue s rest w w1 :
  start_websocket_turn json_loads s w = (Ret Continue, w1) →
  start_websocket json_loads (s :: rest) w =
    start_websocket json_loads rest w1.
Proof. intros Hturn. cbn [start_websocket]. by rewrite Hturn. Qed.

(** X14: the only way out of the loop by [break] is a [KeyboardInterrupt].
    If [start_websocket] has returned, the loop went through some
    connections, a [KeyboardInterrupt] left [run_forever] on the next, the
    shutdown was logged as the last record, and no later connection was
    attempted. *)
Theorem start_websocket_returns_after_interrupt :
  ∀ sessions w w',
    start_websocket json_loads sessions w = Returned w' →
    ∃ before s after w0 w1,
      sessions = before ++ s :: after ∧
      start_websocket json_loads before w = StillRunning w0 ∧
      run_forever json_loads s w0 = (Raise KeyboardInterrupt, w1) ∧
      w' = emit (Log INFO MsgShuttingDown None) w1.
Proof.
  intros sessions. induction sessions as [|s rest IH]; intros w w';
    [discriminate|].
  cbn [start_websocket].
  destruct (start_websocket_turn json_loads s w) as [[[|]|e] w1] eqn:Hturn.
  - intros Hrest.
    destruct (IH _ _ Hrest) as (before & s' & after & w0 & w2 & -> & Hb & H).
    exists (s :: before), s', after, w0, w2. split; [reflexivity|].
    split; [|exact H]. by rewrite (start_websocket_continue _ _ _ _ Hturn).
  - intros [= <-].
    destruct (start_websocket_turn_inv _ _ _ _ Hturn) as (w2 & Hrun & ->).
    by exists [], s, rest, w, w2.
  - discriminate.
Qed.


End LoopEnds.

(** ** The store at its edges *)


(** X17: [save_to_csv] never writes the header.  When the file is missing
    at the time of the write (removed after start-up), the append creates it
    with the row alone, and the bootstrap, finding a file, does not add the
    header afterwards. *)
Theorem save_to_csv_without_file :
  ∀ r w,
    files w !! CSV_FILE = None →
    ∃ w1,
      save_to_csv IoOk r w = (Ret PyNone, w1) ∧
      files w1 !! CSV_FILE = Some [r.*2] ∧
      ∀ io, initialize_store io w1 = (Ret tt, w1).
Proof.
  intros r w Hnone. rewrite save_to_csv_ok. eexists. split; [reflexivity|].
  assert (Hfile : files (emit (Log INFO (MsgEventSaved r) None)
                    {| files := <[CSV_FILE := store w ++ [r.*2]]> (files w);
                       trace := trace w |}) !! CSV_FILE = Some [r.*2]).
  { cbn [files emit]. rewrite lookup_insert_eq. unfold store, csv_file in *.
    by rewrite Hnone. }
  split; [exact Hfile|].
  intros io. apply initialize_store_existing. exists [r.*2]. exact Hfile.
Qed.

(** ** The further properties on the examples *)

(** An answer without address details: three empty strings, no log. *)
Lemma get_location_without_address_witness :
  get_location answer_without_details (PyFloat 37.9) (PyFloat 23.7)
    initialized_world
  = (Ret (PyStr "", PyStr "", PyStr ""), initialized_world).
Proof.
  apply (get_location_without_address answer_without_details).
  vm_compute. reflexivity.
Defined.

(** An address given as text is logged as an [AttributeError]. *)
Lemma get_location_malformed_answer_witness :
  get_location (ReverseLocation answer_with_text_address)
    (PyFloat 37.9) (PyFloat 23.7) initialized_world
  = (Ret (PyStr "", PyStr "", PyStr ""),
     emit (Log ERROR
             (MsgLocationError (PyFloat 37.9) (PyFloat 23.7) AttributeError)
             None) initialized_world).
Proof.
  apply (get_location_malformed_answer answer_with_text_address).
  vm_compute. reflexivity.
Defined.

(** Ctrl-C during the lookup of scenario 1 leaves [process_message]. *)
Lemma lookup_interrupt_propagates_witness :
  process_message json_loads_examples (ReverseRaises KeyboardInterrupt) IoOk
    scenario_1 initialized_world
  = (Raise KeyboardInterrupt, initialized_world).
Proof.
  destruct (lookup_interrupt_propagates json_loads_examples KeyboardInterrupt
              (PyFloat 37.9) (PyFloat 23.7) initialized_world)
    as [_ Hprocess].
  - reflexivity.
  - apply (Hprocess IoOk scenario_1 scenario_1_data (PyStr "create")
             scenario_1_properties scenario_1_coordinates).
    + vm_compute. reflexivity.
    + exact scenario_1_well_formed.
Defined.

(** The event without [action] is dropped with [KeyError('action')]. *)
Lemma process_message_missing_action_witness :
  process_message json_loads_edge_cases athens IoOk no_action_event
    initialized_world
  = (Ret PyNone,
     emit (Log ERROR MsgProcessingError (Some (KeyError (PyStr "action"))))
       initialized_world).
Proof.
  apply (process_message_missing_action json_loads_edge_cases athens IoOk
           no_action_event
           {[ "data" := PyDict {[ "properties" := PyDict ∅;
                                  "geometry" :=
                                    geometry_of [PyFloat 23.7; PyFloat 37.9] ]} ]}
           (PyDict ∅)).
  - vm_compute. reflexivity.
  - vm_compute. reflexivity.
  - vm_compute. reflexivity.
Defined.

(** The event with [null] properties is dropped with [TypeError]. *)
Lemma process_message_properties_not_object_witness :
  process_message json_loads_edge_cases athens IoOk null_properties_event
    initialized_world
  = (Ret PyNone,
     emit (Log ERROR MsgProcessingError (Some TypeError)) initialized_world).
Proof.
  apply (process_message_properties_not_object json_loads_edge_cases athens
           IoOk null_properties_event null_properties_event_data
           (PyStr "create") PyNone).
  - vm_compute. reflexivity.
  - vm_compute. reflexivity.
  - vm_compute. reflexivity.
  - reflexivity.
Defined.

(** The event with an object for coordinates is dropped with [KeyError(1)]. *)
Lemma process_message_coordinates_not_indexable_witness :
  process_message json_loads_edge_cases athens IoOk object_coordinates_event
    initialized_world
  = (Ret PyNone,
     emit (Log ERROR MsgProcessingError (Some (KeyError (PyInt 1))))
       initialized_world).
Proof.
  apply (process_message_coordinates_not_indexable json_loads_edge_cases
           athens IoOk object_coordinates_event object_coordinates_event_data
           (PyStr "create") ∅ object_coordinates).
  - vm_compute. reflexivity.
  - vm_compute. reflexivity.
  - vm_compute. reflexivity.
  - vm_compute. reflexivity.
  - reflexivity.
Defined.

(** Scenario 1 end to end: the row of the specification and one INFO
    record. *)
Lemma process_message_with_address_witness :
  process_message json_loads_examples athens IoOk scenario_1
    initialized_world
  = (Ret PyNone,
     {| files := <[CSV_FILE := store initialized_world
                               ++ [scenario_1_record.*2]]>
                   (files initialized_world);
        trace := trace initialized_world
                 ++ [Log INFO (MsgEventSaved scenario_1_record) None] |}).
Proof.
  apply (process_message_with_address json_loads_examples scenario_1
           scenario_1_data (PyStr "create") scenario_1_properties
           scenario_1_coordinates (PyFloat 23.7) (PyFloat 37.9)
           {[ "address" := PyDict athens_address ]} athens_address
           initialized_world).
  - vm_compute. reflexivity.
  - exact scenario_1_well_formed.
  - reflexivity.
  - reflexivity.
  - vm_compute. reflexivity.
Defined.

(** Scenario 2 end to end: a WARNING, then the INFO record of the row with
    empty location. *)
Lemma process_message_lookup_failed_witness :
  (process_message json_loads_examples (ReverseRaises GeocoderTimedOut) IoOk
     scenario_1 initialized_world).2.(trace)
  = [Log WARNING (MsgGeocoderTimedOut (PyFloat 37.9) (PyFloat 23.7)) None;
     Log INFO
       (MsgEventSaved
          (event_record (PyStr "create") scenario_1_properties
             (PyFloat 37.9) (PyFloat 23.7) (PyStr "") (PyStr "") (PyStr "")))
       None].
Proof.
  rewrite (process_message_lookup_failed json_loads_examples scenario_1
             scenario_1_data (PyStr "create") scenario_1_properties
             scenario_1_coordinates (PyFloat 23.7) (PyFloat 37.9)
             GeocoderTimedOut initialized_world).
  - reflexivity.
  - vm_compute. reflexivity.
  - exact scenario_1_well_formed.
  - reflexivity.
  - reflexivity.
  - reflexivity.
Defined.

Lemma noisy_event_well_formed :
  well_formed noisy_event_data (PyStr "create") noisy_properties
    scenario_1_coordinates.
Proof. repeat split. vm_compute. lia. Defined.

Lemma noisy_same_properties :
  same_properties noisy_properties scenario_1_properties.
Proof.
  intros k Hk. repeat (apply elem_of_cons in Hk as [->|Hk]);
    [vm_compute; reflexivity..|by apply elem_of_nil in Hk].
Defined.

(** The event with an [action] and a [depth] among its properties is
    processed exactly as scenario 1. *)
Lemma process_message_reads_five_properties_witness :
  process_message json_loads_edge_cases athens IoOk noisy_event
    initialized_world
  = process_message json_loads_edge_cases athens IoOk scenario_1
      initialized_world.
Proof.
  apply (process_message_reads_five_properties json_loads_edge_cases athens
           IoOk noisy_event scenario_1 noisy_event_data scenario_1_data
           (PyStr "create") noisy_properties scenario_1_properties
           scenario_1_coordinates initialized_world).
  - vm_compute. reflexivity.
  - vm_compute. reflexivity.
  - exact noisy_event_well_formed.
  - exact scenario_1_well_formed.
  - exact noisy_same_properties.
Defined.



(** Three connections, one of them ended by an exception: three attempts
    and one sleep of 5 seconds. *)
Lemma start_websocket_connects_and_sleeps_witness :
  ∃ w',
    start_websocket json_loads_examples
      [busy_connection; failed_connection; dropped_connection]
      initialized_world = StillRunning w' ∧
    connections (trace w') =
      replicate 3
        ("wss://www.seismicportal.eu/standing_order/websocket", 15%Z) ∧
    sleeps (trace w') = [5%Z].
Proof.
  apply (start_websocket_connects_and_sleeps json_loads_examples
           [busy_connection; failed_connection; dropped_connection]
           initialized_world).
  reflexivity.
Defined.

(** The loop that met a dropped connection and then Ctrl-C. *)
Lemma start_websocket_returns_after_interrupt_witness :
  ∃ before s after w0 w1,
    [dropped_connection; interrupted_connection] = before ++ s :: after ∧
    start_websocket json_loads_examples before fresh_world = StillRunning w0 ∧
    run_forever json_loads_examples s w0 = (Raise KeyboardInterrupt, w1).
Proof.
  destruct (start_websocket_returns_after_interrupt json_loads_examples
              [dropped_connection; interrupted_connection] fresh_world
              (loop_world
                 (start_websocket json_loads_examples
                    [dropped_connection; interrupted_connection]
                    fresh_world)))
    as (before & s & after & w0 & w1 & Hsplit & Hbefore & Hrun & _).
  - vm_compute. reflexivity.
  - by exists before, s, after, w0, w1.
Defined.


(** The same run, evaluated: the error is logged, there is no sleep in the
    trace and no shutdown record, and [KeyboardInterrupt] leaves the loop. *)
Example start_websocket_interrupted_sleep :
  start_websocket json_loads_examples
    [failed_connection_then_interrupt; dropped_connection] fresh_world
  = Propagated KeyboardInterrupt
      {| files := ∅;
         trace :=
           [RunForever websocket_url PING_INTERVAL;
            Log INFO MsgConnectionOpened None;
            Log ERROR MsgUnexpectedError
              (Some (OtherError "WebSocketConnectionClosedException"))] |}.
Proof. vm_compute. reflexivity. Qed.

(** A [SystemExit] out of [run_forever] leaves the loop as it is. *)
Example start_websocket_system_exit :
  start_websocket json_loads_examples
    [exiting_connection; dropped_connection] fresh_world
  = Propagated SystemExit
      {| files := ∅;
         trace :=
           [RunForever websocket_url PING_INTERVAL;
            Log INFO MsgConnectionOpened None] |}.
Proof. vm_compute. reflexivity. Qed.


(** Scenario 1 saved on a machine without the file: a file of one row. *)
Lemma save_to_csv_without_file_witness :
  ∃ w1,
    save_to_csv IoOk scenario_1_record fresh_world = (Ret PyNone, w1) ∧
    files w1 !! CSV_FILE = Some [scenario_1_row].
Proof.
  destruct (save_to_csv_without_file scenario_1_record fresh_world)
    as (w1 & Hrun & Hfile & _).
  - reflexivity.
  - by exists w1.
Defined.
